(** * PBjam [guess_epsilon]: the [epsilon] estimator

    A shallow embedding of [pbjam/guess_epsilon.py] and the properties its
    specification states about it.

    Conventions of the embedding.
    - Python and NumPy floats are idealised as real numbers ([R]); NumPy's
      [log10], [log] and [**] of positive arguments are [ln x / ln 10], [ln]
      and [Rpower].
    - The numbers a caller passes are Python scalars, whose true division
      raises [ZeroDivisionError] on a zero divisor; it is the only
      arithmetic operation of the module that raises.  (NumPy scalars divide
      to [inf] or [nan] instead, which the reals do not have.)
    - A method that assigns attributes of [self] or prints is a function from
      the instance to a result, the instance afterwards and the emitted
      events. *)

From Stdlib Require Import String Reals Lra Lia ZArith Bool List.
Import ListNotations.

Open Scope string_scope.
Open Scope list_scope.
Open Scope R_scope.

(** * Python values, exceptions and output *)

Inductive exn : Type :=
| ValueError (msg : string)
| ZeroDivisionError
| AttributeError (attr : string)
| TypeError
| IndexError.

Inductive result (A : Type) : Type :=
| Ok (a : A)
| Raise (e : exn).

Arguments Ok {A} a.
Arguments Raise {A} e.

(** What a method of the class can hand back in a slot of its result:
    a float, an int (the [-1] sentinels) or a one-dimensional array. *)
Inductive value : Type :=
| VFloat (x : R)
| VInt (z : Z)
| VArray (xs : list R).

Inductive event : Type :=
| Print (line : string)
| Warn (message : string).

Definition rbind {A B : Type} (r : result A) (k : A -> result B) : result B :=
  match r with
  | Ok a => k a
  | Raise e => Raise e
  end.

(** * Arithmetic of the module *)

(** [x / y] on Python scalars. *)
Definition py_truediv (x y : R) : result R :=
  if Req_dec_T y 0 then Raise ZeroDivisionError else Ok (x / y).

Definition np_log10 (x : R) : R := ln x / ln 10.

(** [10 ** x]. *)
Definition pow10 (x : R) : R := Rpower 10 x.

Definition np_sum (xs : list R) : R := fold_right Rplus 0 xs.

(** [xs.mean()] and [xs.std()] of a one-dimensional array with at least one
    entry (NumPy answers [nan] for an empty one, which the reals do not
    have; every statement below about a mean or a deviation is on a pool
    with at least one row). *)
Definition np_mean (xs : list R) : R := np_sum xs / INR (length xs).

Definition np_std (xs : list R) : R :=
  sqrt (np_mean (map (fun x => (x - np_mean xs) ^ 2) xs)).

(** Elementwise combination of two arrays of the same length. *)
Fixpoint zip_with {A B C : Type} (f : A -> B -> C) (xs : list A) (ys : list B)
  : list C :=
  match xs, ys with
  | x :: xs', y :: ys' => f x y :: zip_with f xs' ys'
  | _, _ => []
  end.

(** [rows[:, j]]: column [j] of a two-dimensional array. *)
Fixpoint column (j : nat) (rows : list (list R)) : result (list R) :=
  match rows with
  | [] => Ok []
  | r :: rows' =>
      match nth_error r j with
      | Some x => rbind (column j rows') (fun xs => Ok (x :: xs))
      | None => Raise IndexError
      end
  end.

(** [l[start:]] with Python's treatment of negative and oversized starts. *)
Definition slice_start (start : Z) (len : nat) : nat :=
  if (start <? 0)%Z
  then Z.to_nat (Z.max (start + Z.of_nat len) 0)
  else Z.to_nat (Z.min start (Z.of_nat len)).

Definition slice_from {A : Type} (start : Z) (l : list A) : list A :=
  skipn (slice_start start (length l)) l.

(** [flat.reshape((-1, k))]: consecutive groups of [k] entries. *)
Fixpoint chunks {A : Type} (fuel k : nat) (flat : list A) : list (list A) :=
  match fuel with
  | O => []
  | S fuel' =>
      match flat with
      | [] => []
      | _ :: _ => firstn k flat :: chunks fuel' k (skipn k flat)
      end
  end.

Definition reshape_rows {A : Type} (k : nat) (flat : list A) : list (list A) :=
  chunks (length flat) k flat.

(** * [normal], [to_log10], [vrard] *)

(** [epsilon.normal]: lines 91-93. *)
Definition normal (y mu sigma : R) : result R :=
  if Rlt_dec sigma 0 then Ok 0
  else py_truediv (-0.5 * (y - mu) ^ 2) (sigma ^ 2).

(** [epsilon.to_log10]: lines 153-155.  [xerr / x] divides Python scalars;
    the second divisor is the NumPy float [np.log(10.0)]. *)
Definition to_log10 (x xerr : R) : result (R * R) :=
  if Rlt_dec 0 xerr
  then rbind (py_truediv xerr x) (fun q => Ok (np_log10 x, q / ln 10))
  else Ok (x, xerr).

(** * The data of the class *)

(** The dict [{'dnu': .., 'numax': .., 'teff': .., 'bp_rp': ..}] of
    [value, uncertainty] pairs, used for [self.obs] and [self.log_obs]. *)
Record observation : Type := {
  obs_dnu : R * R;
  obs_numax : R * R;
  obs_teff : R * R;
  obs_bp_rp : R * R
}.

(** A row of [prior_data.csv]; [None] is a missing entry. *)
Record csv_row : Type := {
  csv_dnu : option R;
  csv_numax : option R;
  csv_Teff : option R;
  csv_bp_rp : option R;
  csv_eps : option R
}.

(** A row of [self.prior_data] after [dropna] and the three log columns. *)
Record prior_row : Type := {
  dnu : R;
  numax : R;
  Teff : R;
  bp_rp : R;
  eps : R;
  log_dnu : R;
  log_numax : R;
  log_Teff : R
}.

(** The arguments [sm.nonparametric.KDEMultivariate] is built from. *)
Record KDEMultivariate : Type := {
  kde_data : list (list R);
  var_type : string;
  bw : list R
}.

Record vrard_coefficients : Type := {
  alpha : R;
  beta : R
}.

(** [self.obs] is the list [[]] until a call stores the dict. *)
Inductive obs_attr : Type :=
| ObsEmptyList
| ObsDict (o : observation).

(** [self.samples] is the list [[]] until a call stores the flattened chain,
    a two-dimensional array. *)
Inductive samples_attr : Type :=
| SamplesEmptyList
| SamplesArray (rows : list (list R)).

(** An instance of [epsilon].  The last four attributes do not exist until
    a method assigns them. *)
Record epsilon : Type := {
  method : string;
  vrard_dict : vrard_coefficients;
  data_file : string;
  obs : obs_attr;
  samples : samples_attr;
  verbose : bool;
  prior_data : option (list prior_row);
  cols : option (list string);
  kde : option KDEMultivariate;
  log_obs : option observation
}.

Definition set_obs (o : obs_attr) (s : epsilon) : epsilon :=
  {| method := method s; vrard_dict := vrard_dict s; data_file := data_file s;
     obs := o; samples := samples s; verbose := verbose s;
     prior_data := prior_data s; cols := cols s; kde := kde s;
     log_obs := log_obs s |}.

Definition set_samples (a : samples_attr) (s : epsilon) : epsilon :=
  {| method := method s; vrard_dict := vrard_dict s; data_file := data_file s;
     obs := obs s; samples := a; verbose := verbose s;
     prior_data := prior_data s; cols := cols s; kde := kde s;
     log_obs := log_obs s |}.

Definition set_prior_data (d : list prior_row) (s : epsilon) : epsilon :=
  {| method := method s; vrard_dict := vrard_dict s; data_file := data_file s;
     obs := obs s; samples := samples s; verbose := verbose s;
     prior_data := Some d; cols := cols s; kde := kde s;
     log_obs := log_obs s |}.

Definition set_cols (c : list string) (s : epsilon) : epsilon :=
  {| method := method s; vrard_dict := vrard_dict s; data_file := data_file s;
     obs := obs s; samples := samples s; verbose := verbose s;
     prior_data := prior_data s; cols := Some c; kde := kde s;
     log_obs := log_obs s |}.

Definition set_kde (k : KDEMultivariate) (s : epsilon) : epsilon :=
  {| method := method s; vrard_dict := vrard_dict s; data_file := data_file s;
     obs := obs s; samples := samples s; verbose := verbose s;
     prior_data := prior_data s; cols := cols s; kde := Some k;
     log_obs := log_obs s |}.

Definition set_log_obs (o : observation) (s : epsilon) : epsilon :=
  {| method := method s; vrard_dict := vrard_dict s; data_file := data_file s;
     obs := obs s; samples := samples s; verbose := verbose s;
     prior_data := prior_data s; cols := cols s; kde := kde s;
     log_obs := Some o |}.

(** * Methods as state transformers with exceptions and output *)

Definition M (A : Type) : Type := epsilon -> result A * epsilon * list event.

Definition ret {A : Type} (a : A) : M A := fun s => (Ok a, s, []).

Definition bind {A B : Type} (m : M A) (k : A -> M B) : M B :=
  fun s =>
    match m s with
    | (Ok a, s1, out1) =>
        match k a s1 with
        | (r, s2, out2) => (r, s2, out1 ++ out2)
        end
    | (Raise e, s1, out1) => (Raise e, s1, out1)
    end.

Definition get_self : M epsilon := fun s => (Ok s, s, []).
Definition assign (f : epsilon -> epsilon) : M unit := fun s => (Ok tt, f s, []).
Definition emit (e : event) : M unit := fun s => (Ok tt, s, [e]).
Definition lift {A : Type} (r : result A) : M A := fun s => (r, s, []).
Definition when (b : bool) (m : M unit) : M unit := if b then m else ret tt.

(** Reading an attribute that no method has assigned yet. *)
Definition attribute {A : Type} (name : string) (get : epsilon -> option A) : M A :=
  fun s =>
    match get s with
    | Some a => (Ok a, s, [])
    | None => (Raise (AttributeError name), s, [])
    end.

Declare Scope method_scope.
Delimit Scope method_scope with method.
Notation "x <- m ;; k" := (bind m (fun x => k))
  (at level 61, m at next level, right associativity) : method_scope.
Notation "m ;; k" := (bind m (fun _ => k))
  (at level 61, right associativity) : method_scope.

(** Outcome of running a method on an instance. *)
Definition returned {A : Type} (o : result A * epsilon * list event) : result A :=
  fst (fst o).
Definition after {A : Type} (o : result A * epsilon * list event) : epsilon :=
  snd (fst o).

(** * What the module takes from outside

    The package directory, the CSV reader, the density of the statsmodels
    object, NumPy's random generator and the emcee sampler. *)
Record environment : Type := {
  PACKAGEDIR : string;
  os_sep : string;
  (** [pd.read_csv(path)] *)
  read_csv : string -> list csv_row;
  (** [kde.pdf(p)] *)
  pdf : KDEMultivariate -> list R -> R;
  (** [np.random.rand(ndim)], as drawn for walker [i] *)
  random_rand : nat -> nat -> list R;
  (** [emcee.EnsembleSampler(nwalkers, ndim, lnprob)], then
      [run_mcmc(p0, niter)], then [.chain] *)
  sampler_chain :
    Z -> nat -> (list R -> result R) -> list (list R) -> Z ->
    list (list (list R))
}.

(** The chain has one entry per walker, each with one [ndim]-vector per
    iteration. *)
Definition chain_shape (nwalkers niter : Z) (ndim : nat)
    (chain : list (list (list R))) : Prop :=
  length chain = Z.to_nat nwalkers /\
  Forall (fun walker =>
            length walker = Z.to_nat niter /\
            Forall (fun p => length p = ndim) walker) chain.

Definition sampler_contract (env : environment) : Prop :=
  forall nwalkers ndim lnprob p0 niter,
    chain_shape nwalkers niter ndim
      (sampler_chain env nwalkers ndim lnprob p0 niter).

Definition default_nwalkers : Z := 20.

Definition method_error : string :=
  "The `method` parameter must be one of either`Vrard` or `KDE`".

Section Estimator.

Variable env : environment.

Local Open Scope method_scope.

(** [epsilon.__init__]: lines 27-37. *)
Definition init (method_arg : string) (verbose_arg : bool) : result epsilon :=
  if negb (String.eqb method_arg "Vrard" || String.eqb method_arg "KDE")
  then Raise (ValueError method_error)
  else Ok {| method := method_arg;
             vrard_dict := {| alpha := 0.601; beta := 0.632 |};
             data_file :=
               append (PACKAGEDIR env)
                 (append (os_sep env)
                    (append "data" (append (os_sep env) "prior_data.csv")));
             obs := ObsEmptyList;
             samples := SamplesEmptyList;
             verbose := verbose_arg;
             prior_data := None;
             cols := None;
             kde := None;
             log_obs := None |}.

(** [dropna] keeps the rows without a missing entry. *)
Definition complete_row (r : csv_row) : option prior_row :=
  match csv_dnu r, csv_numax r, csv_Teff r, csv_bp_rp r, csv_eps r with
  | Some d, Some nm, Some t, Some c, Some e =>
      Some {| dnu := d; numax := nm; Teff := t; bp_rp := c; eps := e;
              log_dnu := np_log10 d; log_numax := np_log10 nm;
              log_Teff := np_log10 t |}
  | _, _, _, _, _ => None
  end.

Fixpoint dropna_with_logs (rows : list csv_row) : list prior_row :=
  match rows with
  | [] => []
  | r :: rows' =>
      match complete_row r with
      | Some p => p :: dropna_with_logs rows'
      | None => dropna_with_logs rows'
      end
  end.

(** [epsilon.read_prior_data]: lines 39-47. *)
Definition read_prior_data : M unit :=
  self <- get_self ;;
  when (verbose self) (emit (Print "Reading in prior data")) ;;
  assign (set_prior_data (dropna_with_logs (read_csv env (data_file self)))).

(** [self.cols] and the bandwidths [bw] of [make_kde]: lines 64-69. *)
Definition kde_cols : list string :=
  ["log_dnu"; "log_numax"; "log_Teff"; "bp_rp"; "eps"].

Definition kde_bw : list R :=
  [0.01419127; 0.02364931; 0.00995797; 0.11237306; 0.04371931].

(** [sm.nonparametric.KDEMultivariate(data=.., var_type=.., bw=..)] with a
    user-given bandwidth array: statsmodels raises [ValueError] unless there
    are more observations (rows) than variables (letters of [var_type]). *)
Definition too_few_observations : string :=
  "The number of observations must be larger than the number of variables.".

Definition new_KDEMultivariate (data : list (list R)) (var_type_arg : string)
    (bw_arg : list R) : result KDEMultivariate :=
  if (length data <=? String.length var_type_arg)%nat
  then Raise (ValueError too_few_observations)
  else Ok {| kde_data := data; var_type := var_type_arg; bw := bw_arg |}.

(** [epsilon.make_kde]: lines 62-73.  [self.prior_data[self.cols].values]
    lists, for each row, the five columns named by [kde_cols]. *)
Definition make_kde : M unit :=
  self <- get_self ;;
  when (verbose self) (emit (Print "Building KDE")) ;;
  assign (set_cols kde_cols) ;;
  data <- attribute "prior_data" prior_data ;;
  k <- lift (new_KDEMultivariate
               (map (fun r => [log_dnu r; log_numax r; log_Teff r; bp_rp r; eps r])
                    data)
               "ccccc" kde_bw) ;;
  assign (set_kde k).

(** [epsilon.likelihood]: lines 109-119.  It reads [self] and assigns
    nothing, so it is a function of the instance. *)
Definition likelihood (self : epsilon) (p : list R) : result R :=
  match p with
  | [p_log_dnu; p_log_numax; p_log_teff; p_bp_rp; _] =>
      match kde self with
      | None => Raise (AttributeError "kde")
      | Some k =>
          let lp := ln (pdf env k p) in
          match log_obs self with
          | None => Raise (AttributeError "log_obs")
          | Some lo =>
              let ld := 0 in
              rbind (normal p_log_dnu (fst (obs_dnu lo)) (snd (obs_dnu lo)))
                (fun t1 => let ld := ld + t1 in
              rbind (normal p_log_numax (fst (obs_numax lo)) (snd (obs_numax lo)))
                (fun t2 => let ld := ld + t2 in
              rbind (normal p_log_teff (fst (obs_teff lo)) (snd (obs_teff lo)))
                (fun t3 => let ld := ld + t3 in
              rbind (normal p_bp_rp (fst (obs_bp_rp lo)) (snd (obs_bp_rp lo)))
                (fun t4 => let ld := ld + t4 in
              Ok (lp + ld)))))
          end
      end
  | _ => Raise (ValueError "unpack")
  end.

(** The starting point [x0] of [kde_sampler] and the walkers' jittered
    positions [p0] around it: lines 141-147. *)
Definition x0 (lo : observation) : list R :=
  [fst (obs_dnu lo); fst (obs_numax lo); fst (obs_teff lo);
   fst (obs_bp_rp lo); 1].

Definition p0 (x0 : list R) (ndim : nat) (nwalkers : Z) : list (list R) :=
  map (fun i =>
         zip_with Rplus x0 (map (fun u => u * 1e-3) (random_rand env i ndim)))
      (seq 0 (Z.to_nat nwalkers)).

(** [epsilon.kde_sampler]: lines 139-150. *)
Definition kde_sampler (niter nwalkers burnin : Z) : M (list (list R)) :=
  self <- get_self ;;
  when (verbose self) (emit (Print "Running KDE sampler")) ;;
  lo <- attribute "log_obs" log_obs ;;
  let x0 := x0 lo in
  let ndim := length x0 in
  let p0 := p0 x0 ndim nwalkers in
  let chain := sampler_chain env nwalkers ndim (likelihood self) p0 niter in
  ret (reshape_rows ndim (concat (concat (map (slice_from burnin) chain)))).

(** [epsilon.obs_to_log]: lines 157-161.  The body reads [self.obs]; the
    parameter [obs] is not used. *)
Definition obs_to_log (obs_arg : obs_attr) : M unit :=
  self <- get_self ;;
  match obs self with
  | ObsEmptyList => lift (Raise TypeError)
  | ObsDict o =>
      l_dnu <- lift (to_log10 (fst (obs_dnu o)) (snd (obs_dnu o))) ;;
      l_numax <- lift (to_log10 (fst (obs_numax o)) (snd (obs_numax o))) ;;
      l_teff <- lift (to_log10 (fst (obs_teff o)) (snd (obs_teff o))) ;;
      assign (set_log_obs {| obs_dnu := l_dnu; obs_numax := l_numax;
                             obs_teff := l_teff; obs_bp_rp := obs_bp_rp o |})
  end.

(** [epsilon.vrard]: lines 188-195.  [dnu] is what [len] and [np.log10]
    see: a sequence of numbers. *)
Definition vrard (self : epsilon) (dnu_arg : list R) : value * value :=
  let a := alpha (vrard_dict self) in
  let b := beta (vrard_dict self) in
  if Nat.eqb (length dnu_arg) 2
  then (VFloat (a + b * np_log10 (nth 0 dnu_arg 0)), VFloat 0.1)
  else (VArray (map (fun d => a + b * np_log10 d) dnu_arg),
        VArray (map (fun one => 0.1 * one) (repeat 1 (length dnu_arg)))).

(** [epsilon.kde_predict]: lines 277-283.  The guard [self.samples == []]
    holds for the list of [__init__] and not for a stored array (NumPy
    before 1.25 answers the comparison of an array with [[]] by [False];
    later versions raise there).  With no radial order [freq] is a
    one-dimensional array, which [mean(axis=1)] refuses (its [AxisError] is
    an [IndexError]). *)
Definition kde_predict (n : list R) : M (value * value) :=
  self <- get_self ;;
  match samples self with
  | SamplesEmptyList =>
      emit (Print "Need to run the sampler first") ;;
      ret (VInt (-1), VInt (-1))
  | SamplesArray rows =>
      s_dnu <- lift (column 0 rows) ;;
      s_eps <- lift (column 3 rows) ;;
      let freq :=
        map (fun nn => zip_with (fun e d => (nn + e) * pow10 d) s_eps s_dnu) n in
      match n with
      | [] => lift (Raise IndexError)
      | _ :: _ => ret (VArray (map np_mean freq), VArray (map np_std freq))
      end
  end.

(** [epsilon.__call__]: lines 306-321.  The four quantities are
    [value, uncertainty] pairs; [None] is the result of falling off the end
    of the method. *)
Definition call (dnu_arg numax_arg teff_arg bp_rp_arg : R * R)
    (niter burnin : Z) : M (option (value * value)) :=
  self <- get_self ;;
  if String.eqb (method self) "Vrard" then
    if Rlt_dec 288.0 (fst numax_arg) then
      emit (Warn "Vrard method really only valid for Giants.") ;;
      ret (Some (fst (vrard self [fst dnu_arg; snd dnu_arg]), VFloat 1.0))
    else ret (Some (vrard self [fst dnu_arg; snd dnu_arg]))
  else
    assign (set_obs (ObsDict {| obs_dnu := dnu_arg; obs_numax := numax_arg;
                                obs_teff := teff_arg;
                                obs_bp_rp := bp_rp_arg |})) ;;
    self <- get_self ;;
    if String.eqb (method self) "KDE" then
      read_prior_data ;;
      self <- get_self ;;
      obs_to_log (obs self) ;;
      make_kde ;;
      pool <- kde_sampler niter default_nwalkers burnin ;;
      assign (set_samples (SamplesArray pool)) ;;
      s_eps <- lift (column 4 pool) ;;
      ret (Some (VFloat (np_mean s_eps), VFloat (np_std s_eps)))
    else ret None.

End Estimator.

(** * Vocabulary of the statements *)

(** A [value, uncertainty] pair that [to_log10] converts without raising. *)
Definition loggable (q : R * R) : Prop := 0 < snd q -> fst q <> 0.

Definition eps_column (pool : list (list R)) : list R :=
  map (fun row => nth 4 row 0) pool.

(** The frequencies [kde_predict] averages for the radial order [nn]: it
    adds column 3 of the pool to [nn]. *)
Definition predicted_samples (nn : R) (pool : list (list R)) : list R :=
  map (fun row => (nn + nth 3 row 0) * pow10 (nth 0 row 0)) pool.

(** The frequencies the specification words: [(n + eps) * 10^log_dnu] with
    [eps] column 4 and [log_dnu] column 0 of the pool. *)
Definition specified_samples (nn : R) (pool : list (list R)) : list R :=
  map (fun row => (nn + nth 4 row 0) * pow10 (nth 0 row 0)) pool.

Definition specified_prediction (n : list R) (pool : list (list R))
  : value * value :=
  (VArray (map (fun nn => np_mean (specified_samples nn pool)) n),
   VArray (map (fun nn => np_std (specified_samples nn pool)) n)).

Definition verbose_lines (self : epsilon) : list event :=
  if verbose self
  then [Print "Reading in prior data"; Print "Building KDE";
        Print "Running KDE sampler"]
  else [].

(** [m] ends, normally or by an exception, with the [view] of the instance
    it started from. *)
Definition keeps {X A : Type} (view : epsilon -> X) (m : M A) : Prop :=
  forall s, view (after (m s)) = view s.

(** The attributes fixed by [__init__]. *)
Definition configuration (s : epsilon)
  : string * vrard_coefficients * string * bool :=
  (method s, vrard_dict s, data_file s, verbose s).

(** What only [__call__] assigns after construction. *)
Definition call_owned (s : epsilon)
  : string * vrard_coefficients * string * bool * obs_attr * samples_attr :=
  (configuration s, obs s, samples s).

Definition configured (s : epsilon) : Prop :=
  (method s = "Vrard" \/ method s = "KDE") /\
  vrard_dict s = {| alpha := 0.601; beta := 0.632 |}.

Section Sampling.

Variable env : environment.

Definition prior_of (self : epsilon) : list prior_row :=
  dropna_with_logs (read_csv env (data_file self)).

(** The instance when [kde_sampler] starts: the observation, the prior
    data, the log observation, the columns and the density are in place. *)
Definition prepared (o lo : observation) (self : epsilon) : epsilon :=
  set_kde
    {| kde_data :=
         map (fun r => [log_dnu r; log_numax r; log_Teff r; bp_rp r; eps r])
             (prior_of self);
       var_type := "ccccc";
       bw := kde_bw |}
    (set_cols kde_cols
       (set_log_obs lo
          (set_prior_data (prior_of self) (set_obs (ObsDict o) self)))).

(** The chain the sampler hands back in a call. *)
Definition call_chain (o lo : observation) (self : epsilon) (niter : Z)
  : list (list (list R)) :=
  sampler_chain env default_nwalkers 5
    (likelihood env (prepared o lo self))
    (p0 env (x0 lo) 5 default_nwalkers) niter.

Definition call_pool (o lo : observation) (self : epsilon) (niter burnin : Z)
  : list (list R) :=
  reshape_rows 5
    (concat (concat (map (slice_from burnin) (call_chain o lo self niter)))).

(** The steps of the sampling path after the observation is stored. *)
Definition sampling_steps (niter burnin : Z) : M (option (value * value)) :=
  (read_prior_data env ;;
   self <- get_self ;;
   obs_to_log (obs self) ;;
   make_kde ;;
   pool <- kde_sampler env niter default_nwalkers burnin ;;
   assign (set_samples (SamplesArray pool)) ;;
   s_eps <- lift (column 4 pool) ;;
   ret (Some (VFloat (np_mean s_eps), VFloat (np_std s_eps))))%method.

(** The instances a program can hold: built by [__init__], then used
    through the methods. *)
Inductive reachable : epsilon -> Prop :=
| reach_init (method_arg : string) (verbose_arg : bool) (s : epsilon) :
    init env method_arg verbose_arg = Ok s -> reachable s
| reach_call (s : epsilon) (dnu_arg numax_arg teff_arg bp_rp_arg : R * R)
    (niter burnin : Z) :
    reachable s ->
    reachable
      (after (call env dnu_arg numax_arg teff_arg bp_rp_arg niter burnin s))
| reach_read_prior_data (s : epsilon) :
    reachable s -> reachable (after (read_prior_data env s))
| reach_make_kde (s : epsilon) :
    reachable s -> reachable (after (make_kde s))
| reach_obs_to_log (s : epsilon) (obs_arg : obs_attr) :
    reachable s -> reachable (after (obs_to_log obs_arg s))
| reach_kde_sampler (s : epsilon) (niter nwalkers burnin : Z) :
    reachable s -> reachable (after (kde_sampler env niter nwalkers burnin s))
| reach_kde_predict (s : epsilon) (n : list R) :
    reachable s -> reachable (after (kde_predict n s)).

End Sampling.

(** * Concrete settings *)

(** A prior table of seven rows, one of them with a missing entry. *)
Definition reference_star (d nm t c e : R) : csv_row :=
  {| csv_dnu := Some d; csv_numax := Some nm; csv_Teff := Some t;
     csv_bp_rp := Some c; csv_eps := Some e |}.

Definition reference_table : list csv_row :=
  [reference_star 4 30 4800 1.2 1.0;
   reference_star 10 100 4900 1.1 1.2;
   reference_star 20 250 5000 1.0 1.3;
   {| csv_dnu := Some 50; csv_numax := None; csv_Teff := Some 5500;
      csv_bp_rp := Some 0.9; csv_eps := Some 1.4 |};
   reference_star 70 1500 5800 0.8 1.4;
   reference_star 100 2000 6000 0.7 1.5;
   reference_star 135 3100 5777 0.8 1.5].

(** A package directory, the reference table, a flat density, no jitter and
    a sampler whose walkers all rest at one point: [at_point], cut or padded
    with zeros to [ndim] entries. *)
Definition resting_env (at_point : list R) : environment :=
  {| PACKAGEDIR := "pbjam";
     os_sep := "/";
     read_csv := fun _ => reference_table;
     pdf := fun _ _ => 1;
     random_rand := fun _ ndim => repeat 0 ndim;
     sampler_chain := fun nwalkers ndim _ _ niter =>
       repeat (repeat (firstn ndim (at_point ++ repeat 0 ndim))
                 (Z.to_nat niter))
         (Z.to_nat nwalkers) |}.

Definition still_env : environment := resting_env [].

(** The same with an empty prior table. *)
Definition bare_env : environment :=
  {| PACKAGEDIR := "pbjam";
     os_sep := "/";
     read_csv := fun _ => [];
     pdf := fun _ _ => 1;
     random_rand := fun _ ndim => repeat 0 ndim;
     sampler_chain := sampler_chain still_env |}.

(** The reference table, a flat density, a jitter that differs from walker
    to walker, and a sampler whose walker [w] is at step [t] its starting
    position moved by [t] in every coordinate (cut or padded to [ndim]
    entries): no two steps of a walker are the same. *)
Definition drifting_env : environment :=
  {| PACKAGEDIR := "pbjam";
     os_sep := "/";
     read_csv := fun _ => reference_table;
     pdf := fun _ _ => 1;
     random_rand := fun i ndim => repeat (/ (INR i + 2)) ndim;
     sampler_chain := fun nwalkers ndim _ start niter =>
       map (fun w =>
              map (fun t =>
                     firstn ndim
                       (map (fun x => x + INR t) (nth w start [])
                        ++ repeat (INR t) ndim))
                  (seq 0 (Z.to_nat niter)))
           (seq 0 (Z.to_nat nwalkers)) |}.

(** A measured observation and its log transform; the default arguments of
    [__call__]. *)
Definition measured_obs : observation :=
  {| obs_dnu := (100, 1); obs_numax := (30, 1); obs_teff := (4800, 100);
     obs_bp_rp := (1.2, 0.05) |}.

Definition measured_log : observation :=
  {| obs_dnu := (np_log10 100, 1 / 100 / ln 10);
     obs_numax := (np_log10 30, 1 / 30 / ln 10);
     obs_teff := (np_log10 4800, 100 / 4800 / ln 10);
     obs_bp_rp := (1.2, 0.05) |}.

Definition default_obs : observation :=
  {| obs_dnu := (1, -1); obs_numax := (1, -1); obs_teff := (1, -1);
     obs_bp_rp := (1, -1) |}.

Definition fresh (method_arg : string) : epsilon :=
  {| method := method_arg;
     vrard_dict := {| alpha := 0.601; beta := 0.632 |};
     data_file := "pbjam/data/prior_data.csv";
     obs := ObsEmptyList;
     samples := SamplesEmptyList;
     verbose := false;
     prior_data := None;
     cols := None;
     kde := None;
     log_obs := None |}.

(** An observation with one measured quantity, one unconstrained, one with
    a zero uncertainty, and a colour. *)
Definition giant_obs : observation :=
  {| obs_dnu := (100, 1); obs_numax := (30, -1); obs_teff := (4800, 0);
     obs_bp_rp := (1.2, 0.05) |}.

(** A candidate vector with [log_dnu = 0], [bp_rp = 1] and [eps = 2], the
    pool of 20 walkers resting there for one kept step, and the instance
    after the call that samples it. *)
Definition resting_point : list R := [0; 0; 0; 1; 2].

Definition resting_pool : list (list R) := repeat resting_point 20.

Definition sampled : epsilon :=
  after (call (resting_env resting_point) (1, -1) (1, -1) (1, -1) (1, -1) 1 0
           (fresh "KDE")).

(** * The Monte-Carlo prediction of the regression *)

Section MonteCarlo.

(** [np.random.randn(npts)]: the [k]-th draw of a call, [npts] numbers. *)
Variable randn : nat -> nat -> list R.

(** [epsilon.vrard_predict]: lines 219-223.  [vrard] sees the array
    [dnu_mc], so it answers with two floats when [npts] is 2 and with two
    arrays otherwise; [eps + randn * eps_unc] broadcasts the floats.  NumPy
    refuses a negative [npts], and [mean(axis=1)] refuses the
    one-dimensional array an empty [n] gives (its [AxisError] is an
    [IndexError]). *)
Definition vrard_predict (self : epsilon) (n : list R) (dnu_arg : R * R)
    (npts : Z) : result (value * value) :=
  if (npts <? 0)%Z then Raise (ValueError "negative dimensions are not allowed")
  else
    let dnu_mc :=
      map (fun z => z * snd dnu_arg + fst dnu_arg) (randn 0 (Z.to_nat npts)) in
    rbind
      match vrard self dnu_mc with
      | (VFloat e, VFloat u) =>
          Ok (map (fun z => e + z * u) (randn 1 (Z.to_nat npts)))
      | (VArray es, VArray us) =>
          Ok (zip_with Rplus es
                (zip_with Rmult (randn 1 (Z.to_nat npts)) us))
      | _ => Raise TypeError
      end
      (fun eps_mc =>
         let frequencies_mc :=
           map (fun nn => zip_with (fun e d => (nn + e) * d) eps_mc dnu_mc) n in
         match n with
         | [] => Raise IndexError
         | _ :: _ =>
             Ok (VArray (map np_mean frequencies_mc),
                 VArray (map np_std frequencies_mc))
         end).

(** The draws [dnu_mc] of [dnu] in a call of [vrard_predict]. *)
Definition dnu_mc (dnu_arg : R * R) (npts : Z) : list R :=
  map (fun z => z * snd dnu_arg + fst dnu_arg) (randn 0 (Z.to_nat npts)).

End MonteCarlo.

(** * Further vocabulary *)

(** The three transforms of [obs_to_log], in the order its dict literal
    makes them, and the log observation they give. *)
Definition converted (o : observation) : result observation :=
  rbind (to_log10 (fst (obs_dnu o)) (snd (obs_dnu o))) (fun l_dnu =>
  rbind (to_log10 (fst (obs_numax o)) (snd (obs_numax o))) (fun l_numax =>
  rbind (to_log10 (fst (obs_teff o)) (snd (obs_teff o))) (fun l_teff =>
  Ok {| obs_dnu := l_dnu; obs_numax := l_numax; obs_teff := l_teff;
        obs_bp_rp := obs_bp_rp o |}))).

(** A stored pool has five columns. *)
Definition five_columns (s : epsilon) : Prop :=
  match samples s with
  | SamplesEmptyList => True
  | SamplesArray rows => Forall (fun row => length row = 5%nat) rows
  end.

Definition is_complete (r : csv_row) : bool :=
  match complete_row r with
  | Some _ => true
  | None => false
  end.

(** The uncertainties of a log observation. *)
Definition sigmas (lo : observation) : list R :=
  [snd (obs_dnu lo); snd (obs_numax lo); snd (obs_teff lo);
   snd (obs_bp_rp lo)].

(** [np.random.rand] draws [ndim] numbers of the interval [[0, 1)]. *)
Definition rand_contract (env : environment) : Prop :=
  forall i ndim,
    length (random_rand env i ndim) = ndim /\
    Forall (fun u => 0 <= u < 1) (random_rand env i ndim).

(** How many steps of a walker [chain[:, burnin:, :]] keeps. *)
Definition kept_steps (niter burnin : Z) : Z :=
  if (burnin <? 0)%Z then Z.min (- burnin) niter
  else Z.max (niter - burnin) 0.

(** Draws that are all zero. *)
Definition still_randn : nat -> nat -> list R := fun _ npts => repeat 0 npts.

(** [np.random.randn(npts)] draws [npts] numbers. *)
Definition randn_contract (randn : nat -> nat -> list R) : Prop :=
  forall k npts, length (randn k npts) = npts.

(** * Arrays: columns, slices and reshaping *)

Section Arrays.

Context {A : Type}.

Lemma slice_start_nonneg (start : Z) (len : nat) :
  (0 <= start <= Z.of_nat len)%Z -> slice_start start len = Z.to_nat start.
Proof.
  intros [Hlo Hhi]. unfold slice_start.
  destruct (Z.ltb_spec start 0) as [Hneg | _]; [lia |].
  now rewrite Z.min_l.
Qed.

Lemma slice_from_length (start : Z) (l : list A) :
  length (slice_from start l) = (length l - slice_start start (length l))%nat.
Proof. unfold slice_from. apply length_skipn. Qed.

Lemma slice_from_skipn (start : Z) (l : list A) :
  (0 <= start <= Z.of_nat (length l))%Z ->
  slice_from start l = skipn (Z.to_nat start) l.
Proof. intros H. unfold slice_from. now rewrite slice_start_nonneg. Qed.

(** Rows of one width [k] survive flattening and regrouping by [k]. *)
Lemma chunks_concat (k : nat) (rows : list (list A)) :
  (0 < k)%nat ->
  Forall (fun row => length row = k) rows ->
  forall fuel, (length (concat rows) <= fuel)%nat ->
  chunks fuel k (concat rows) = rows.
Proof.
  intros Hk Hrows. induction Hrows as [| row rows Hrow _ IH]; intros fuel Hfuel.
  - destruct fuel; reflexivity.
  - change (concat (row :: rows)) with (row ++ concat rows) in *.
    rewrite length_app in Hfuel.
    assert (Hfirst : firstn k (row ++ concat rows) = row).
    { rewrite firstn_app, firstn_all2 by lia.
      replace (k - length row)%nat with 0%nat by lia.
      now rewrite firstn_O, app_nil_r. }
    assert (Hskip : skipn k (row ++ concat rows) = concat rows).
    { rewrite skipn_app, skipn_all2 by lia.
      replace (k - length row)%nat with 0%nat by lia.
      reflexivity. }
    destruct fuel as [| fuel']; [lia |].
    destruct row as [| a row']; [simpl in Hrow; lia |].
    change (chunks (S fuel') k ((a :: row') ++ concat rows))
      with (firstn k ((a :: row') ++ concat rows)
            :: chunks fuel' k (skipn k ((a :: row') ++ concat rows))).
    rewrite Hfirst, Hskip. f_equal. apply IH. lia.
Qed.

Lemma reshape_rows_concat (k : nat) (rows : list (list A)) :
  (0 < k)%nat ->
  Forall (fun row => length row = k) rows ->
  reshape_rows k (concat rows) = rows.
Proof. intros Hk Hrows. unfold reshape_rows. now apply chunks_concat. Qed.

(** Flattening [m] lists of [n] entries gives [m * n] entries. *)
Lemma concat_uniform_length (n : nat) (ls : list (list A)) :
  Forall (fun l => length l = n) ls ->
  length (concat ls) = (length ls * n)%nat.
Proof.
  induction 1 as [| l ls Hl _ IH]; [reflexivity |].
  simpl. rewrite length_app, IH, Hl. reflexivity.
Qed.

Lemma Forall_concat (P : A -> Prop) (ls : list (list A)) :
  Forall (Forall P) ls -> Forall P (concat ls).
Proof.
  induction 1 as [| l ls Hl _ IH]; simpl; [constructor |].
  apply Forall_app. now split.
Qed.

Lemma Forall_skipn (P : A -> Prop) (n : nat) (l : list A) :
  Forall P l -> Forall P (skipn n l).
Proof.
  intros H. rewrite <- (firstn_skipn n l) in H.
  now apply Forall_app in H.
Qed.

End Arrays.

Lemma column_in_range (j width : nat) (rows : list (list R)) :
  (j < width)%nat ->
  Forall (fun row => length row = width) rows ->
  column j rows = Ok (map (fun row => nth j row 0) rows).
Proof.
  intros Hj Hrows. induction Hrows as [| row rows Hrow _ IH]; [reflexivity |].
  simpl. destruct (nth_error row j) as [x |] eqn:E.
  - rewrite IH. simpl. f_equal. f_equal.
    symmetry. now apply nth_error_nth.
  - apply nth_error_None in E. lia.
Qed.

(** What [chain[:, burnin:, :].reshape((-1, ndim))] is for a chain of the
    contracted shape: the walkers' kept steps, one walker after the other. *)
Lemma flattened_chain (nwalkers niter burnin : Z) (ndim : nat)
    (chain : list (list (list R))) :
  (0 < ndim)%nat ->
  chain_shape nwalkers niter ndim chain ->
  let kept := map (slice_from burnin) chain in
  reshape_rows ndim (concat (concat kept)) = concat kept /\
  Forall (fun row => length row = ndim) (concat kept) /\
  length (concat kept) =
    (Z.to_nat nwalkers
     * (Z.to_nat niter - slice_start burnin (Z.to_nat niter)))%nat.
Proof.
  intros Hdim [Hlen Hwalkers] kept.
  assert (Hrows : Forall (fun row => length row = ndim) (concat kept)).
  { apply Forall_concat. subst kept. apply Forall_map.
    eapply Forall_impl; [| exact Hwalkers].
    intros walker [_ Hsteps]. now apply Forall_skipn. }
  repeat split.
  - now apply reshape_rows_concat.
  - exact Hrows.
  - rewrite (concat_uniform_length
               (Z.to_nat niter - slice_start burnin (Z.to_nat niter))).
    + subst kept. now rewrite length_map, Hlen.
    + subst kept. apply Forall_map.
      eapply Forall_impl; [| exact Hwalkers].
      intros walker [Hsteps _]. simpl.
      now rewrite slice_from_length, Hsteps.
Qed.

(** * The scalar functions *)

Lemma py_truediv_nonzero (x y : R) : y <> 0 -> py_truediv x y = Ok (x / y).
Proof.
  intros Hy. unfold py_truediv. now destruct (Req_dec_T y 0).
Qed.

Lemma py_truediv_zero (x : R) : py_truediv x 0 = Raise ZeroDivisionError.
Proof.
  unfold py_truediv. destruct (Req_dec_T 0 0) as [_ | Hne]; [reflexivity |].
  now contradiction Hne.
Qed.

Lemma normal_negative (y mu sigma : R) : sigma < 0 -> normal y mu sigma = Ok 0.
Proof.
  intros Hs. unfold normal. now destruct (Rlt_dec sigma 0).
Qed.

Lemma normal_not_negative (y mu sigma : R) :
  ~ sigma < 0 ->
  normal y mu sigma = py_truediv (-0.5 * (y - mu) ^ 2) (sigma ^ 2).
Proof.
  intros Hs. unfold normal. now destruct (Rlt_dec sigma 0).
Qed.

Lemma normal_zero (y mu : R) : normal y mu 0 = Raise ZeroDivisionError.
Proof.
  rewrite normal_not_negative by lra.
  replace (0 ^ 2) with 0 by ring. apply py_truediv_zero.
Qed.

Lemma normal_positive (y mu sigma : R) :
  0 < sigma -> normal y mu sigma = Ok (-0.5 * (y - mu) ^ 2 / sigma ^ 2).
Proof.
  intros Hs. rewrite normal_not_negative by lra.
  apply py_truediv_nonzero. apply pow_nonzero. lra.
Qed.

Lemma to_log10_positive (x xerr : R) :
  0 < xerr -> x <> 0 -> to_log10 x xerr = Ok (np_log10 x, xerr / x / ln 10).
Proof.
  intros He Hx. unfold to_log10. destruct (Rlt_dec 0 xerr); [| contradiction].
  now rewrite py_truediv_nonzero.
Qed.

Lemma to_log10_positive_zero (xerr : R) :
  0 < xerr -> to_log10 0 xerr = Raise ZeroDivisionError.
Proof.
  intros He. unfold to_log10. destruct (Rlt_dec 0 xerr); [| contradiction].
  now rewrite py_truediv_zero.
Qed.

Lemma to_log10_not_positive (x xerr : R) :
  ~ 0 < xerr -> to_log10 x xerr = Ok (x, xerr).
Proof.
  intros He. unfold to_log10. now destruct (Rlt_dec 0 xerr).
Qed.

Lemma to_log10_loggable (q : R * R) :
  loggable q -> exists l, to_log10 (fst q) (snd q) = Ok l.
Proof.
  intros Hq. destruct (Rlt_dec 0 (snd q)) as [Hpos | Hnpos].
  - eexists. apply to_log10_positive; auto.
  - eexists. now apply to_log10_not_positive.
Qed.

(** * Running the methods *)

Section Runs.

Variable env : environment.

(** ** The regression path of [__call__] *)

Lemma call_vrard_run (self : epsilon) (dnu_arg numax_arg teff_arg bp_rp_arg : R * R)
    (niter burnin : Z) :
  method self = "Vrard" ->
  call env dnu_arg numax_arg teff_arg bp_rp_arg niter burnin self =
    if Rlt_dec 288.0 (fst numax_arg)
    then (Ok (Some (fst (vrard self [fst dnu_arg; snd dnu_arg]), VFloat 1.0)),
          self, [Warn "Vrard method really only valid for Giants."])
    else (Ok (Some (vrard self [fst dnu_arg; snd dnu_arg])), self, []).
Proof.
  intros Hm. unfold call, bind, get_self. rewrite Hm.
  change ("Vrard" =? "Vrard")%string with true. cbv iota.
  destruct (Rlt_dec 288.0 (fst numax_arg)); reflexivity.
Qed.

(** ** The sampling path of [__call__] *)

Lemma new_KDEMultivariate_enough (data : list (list R)) (bw_arg : list R) :
  (5 < length data)%nat ->
  new_KDEMultivariate data "ccccc" bw_arg =
    Ok {| kde_data := data; var_type := "ccccc"; bw := bw_arg |}.
Proof.
  intros Hrows. unfold new_KDEMultivariate.
  change (String.length "ccccc") with 5%nat.
  destruct (Nat.leb_spec (length data) 5); [lia | reflexivity].
Qed.

Lemma new_KDEMultivariate_too_few (data : list (list R)) (bw_arg : list R) :
  (length data <= 5)%nat ->
  new_KDEMultivariate data "ccccc" bw_arg
    = Raise (ValueError too_few_observations).
Proof.
  intros Hrows. unfold new_KDEMultivariate.
  change (String.length "ccccc") with 5%nat.
  destruct (Nat.leb_spec (length data) 5); [reflexivity | lia].
Qed.

Lemma call_kde_run (self : epsilon) (dnu_arg numax_arg teff_arg bp_rp_arg : R * R)
    (niter burnin : Z) (l_dnu l_numax l_teff : R * R) :
  method self = "KDE" ->
  (5 < length (prior_of env self))%nat ->
  to_log10 (fst dnu_arg) (snd dnu_arg) = Ok l_dnu ->
  to_log10 (fst numax_arg) (snd numax_arg) = Ok l_numax ->
  to_log10 (fst teff_arg) (snd teff_arg) = Ok l_teff ->
  let o := {| obs_dnu := dnu_arg; obs_numax := numax_arg;
              obs_teff := teff_arg; obs_bp_rp := bp_rp_arg |} in
  let lo := {| obs_dnu := l_dnu; obs_numax := l_numax;
               obs_teff := l_teff; obs_bp_rp := bp_rp_arg |} in
  let pool := call_pool env o lo self niter burnin in
  call env dnu_arg numax_arg teff_arg bp_rp_arg niter burnin self =
    (rbind (column 4 pool)
       (fun s_eps => Ok (Some (VFloat (np_mean s_eps), VFloat (np_std s_eps)))),
     set_samples (SamplesArray pool) (prepared env o lo self),
     verbose_lines self).
Proof.
  intros Hm Hrows Hd Hn Ht o lo pool.
  assert (Hk : new_KDEMultivariate
                 (map (fun r => [log_dnu r; log_numax r; log_Teff r;
                                 bp_rp r; eps r])
                    (dropna_with_logs (read_csv env (data_file self))))
                 "ccccc" kde_bw
               = Ok {| kde_data :=
                         map (fun r => [log_dnu r; log_numax r; log_Teff r;
                                        bp_rp r; eps r])
                           (dropna_with_logs (read_csv env (data_file self)));
                       var_type := "ccccc"; bw := kde_bw |}).
  { apply new_KDEMultivariate_enough. rewrite length_map. exact Hrows. }
  unfold call, read_prior_data, obs_to_log, make_kde, kde_sampler, attribute,
    bind, get_self, assign, when, emit, ret, lift, verbose_lines.
  rewrite Hm.
  change ("KDE" =? "Vrard")%string with false. cbv iota.
  cbn [method set_obs]. rewrite Hm.
  change ("KDE" =? "KDE")%string with true. cbv iota.
  destruct (verbose self) eqn:Ev;
    repeat (cbn [obs set_obs set_prior_data set_cols set_log_obs set_kde
                 verbose data_file prior_data log_obs
                 obs_dnu obs_numax obs_teff obs_bp_rp app];
            rewrite ?Ev, ?Hd, ?Hn, ?Ht, ?Hk);
    fold (prior_of env self); fold o lo;
    change (length (x0 lo)) with 5%nat;
    fold (prepared env o lo self); fold (call_chain env o lo self niter);
    fold (call_pool env o lo self niter burnin); fold pool;
    destruct (column 4 pool); reflexivity.
Qed.

End Runs.

(** * What a method leaves alone *)

Section Keeps.

Context {X : Type} (view : epsilon -> X).

Lemma keeps_ret {A : Type} (a : A) : keeps view (ret a).
Proof. intros s. reflexivity. Qed.

Lemma keeps_get_self : keeps view get_self.
Proof. intros s. reflexivity. Qed.

Lemma keeps_emit (e : event) : keeps view (emit e).
Proof. intros s. reflexivity. Qed.

Lemma keeps_lift {A : Type} (r : result A) : keeps view (lift r).
Proof. intros s. reflexivity. Qed.

Lemma keeps_attribute {A : Type} (name : string) (get : epsilon -> option A) :
  keeps view (attribute name get).
Proof. intros s. unfold attribute. now destruct (get s). Qed.

Lemma keeps_assign (f : epsilon -> epsilon) :
  (forall s, view (f s) = view s) -> keeps view (assign f).
Proof. intros Hf s. apply Hf. Qed.

Lemma keeps_when (b : bool) (m : M unit) : keeps view m -> keeps view (when b m).
Proof. intros Hm. destruct b; [exact Hm | apply keeps_ret]. Qed.

Lemma keeps_bind {A B : Type} (m : M A) (k : A -> M B) :
  keeps view m -> (forall a, keeps view (k a)) -> keeps view (bind m k).
Proof.
  intros Hm Hk s. unfold bind. specialize (Hm s).
  destruct (m s) as [[[a | e] s1] out1]; unfold after in *; simpl in *.
  - specialize (Hk a s1). unfold after in Hk.
    destruct (k a s1) as [[r s2] out2]. simpl in *. congruence.
  - exact Hm.
Qed.

End Keeps.

Lemma keeps_coarser {X Y A : Type} (fine : epsilon -> X) (coarse : X -> Y)
    (m : M A) :
  keeps fine m -> keeps (fun s => coarse (fine s)) m.
Proof. intros H s. simpl. now rewrite H. Qed.

Create HintDb frame.

#[local] Hint Resolve keeps_ret keeps_get_self keeps_emit keeps_lift
  keeps_attribute keeps_when : frame.

Ltac frame_step :=
  first
    [ apply keeps_bind; [| intros ? ]
    | apply keeps_assign; intros ?; reflexivity
    | solve [ auto with frame ] ].

Section Frames.

Variable env : environment.

Lemma read_prior_data_keeps : keeps call_owned (read_prior_data env).
Proof. unfold read_prior_data. repeat frame_step. Qed.

Lemma make_kde_keeps : keeps call_owned make_kde.
Proof. unfold make_kde. repeat frame_step. Qed.

Lemma obs_to_log_keeps (obs_arg : obs_attr) :
  keeps call_owned (obs_to_log obs_arg).
Proof.
  unfold obs_to_log. frame_step; [frame_step |].
  destruct (obs a); repeat frame_step.
Qed.

Lemma kde_sampler_keeps (niter nwalkers burnin : Z) :
  keeps call_owned (kde_sampler env niter nwalkers burnin).
Proof. unfold kde_sampler. repeat frame_step. Qed.

Lemma kde_predict_keeps (n : list R) : keeps call_owned (kde_predict n).
Proof.
  unfold kde_predict. frame_step; [frame_step |].
  destruct (samples a); repeat frame_step.
  destruct n; frame_step.
Qed.

Lemma call_owned_configuration {A : Type} (m : M A) :
  keeps call_owned m -> keeps configuration m.
Proof. apply (keeps_coarser call_owned (fun v => fst (fst v))). Qed.

Lemma call_owned_obs {A : Type} (m : M A) :
  keeps call_owned m -> keeps obs m.
Proof. apply (keeps_coarser call_owned (fun v => snd (fst v))). Qed.

Lemma sampling_steps_keep_configuration (niter burnin : Z) :
  keeps configuration (sampling_steps env niter burnin).
Proof.
  unfold sampling_steps.
  frame_step; [apply call_owned_configuration, read_prior_data_keeps |].
  frame_step; [frame_step |].
  frame_step; [apply call_owned_configuration, obs_to_log_keeps |].
  frame_step; [apply call_owned_configuration, make_kde_keeps |].
  frame_step; [apply call_owned_configuration, kde_sampler_keeps |].
  repeat frame_step.
Qed.

Lemma sampling_steps_keep_obs (niter burnin : Z) :
  keeps obs (sampling_steps env niter burnin).
Proof.
  unfold sampling_steps.
  frame_step; [apply call_owned_obs, read_prior_data_keeps |].
  frame_step; [frame_step |].
  frame_step; [apply call_owned_obs, obs_to_log_keeps |].
  frame_step; [apply call_owned_obs, make_kde_keeps |].
  frame_step; [apply call_owned_obs, kde_sampler_keeps |].
  repeat frame_step.
Qed.

Lemma call_keeps (dnu_arg numax_arg teff_arg bp_rp_arg : R * R)
    (niter burnin : Z) :
  keeps configuration
    (call env dnu_arg numax_arg teff_arg bp_rp_arg niter burnin).
Proof.
  unfold call. frame_step; [frame_step |].
  destruct (method a =? "Vrard")%string.
  - destruct (Rlt_dec 288.0 (fst numax_arg)); repeat frame_step.
  - frame_step; [frame_step |]. frame_step; [frame_step |].
    destruct (method a1 =? "KDE")%string; [| frame_step].
    apply sampling_steps_keep_configuration.
Qed.

(** The sampling path stores the observation, whatever happens next. *)
Lemma call_kde_stores_obs (self : epsilon)
    (dnu_arg numax_arg teff_arg bp_rp_arg : R * R) (niter burnin : Z) :
  method self = "KDE" ->
  obs (after (call env dnu_arg numax_arg teff_arg bp_rp_arg niter burnin self)) =
    ObsDict {| obs_dnu := dnu_arg; obs_numax := numax_arg;
               obs_teff := teff_arg; obs_bp_rp := bp_rp_arg |}.
Proof.
  intros Hm.
  pose proof (sampling_steps_keep_obs niter burnin
                (set_obs (ObsDict {| obs_dnu := dnu_arg; obs_numax := numax_arg;
                                     obs_teff := teff_arg;
                                     obs_bp_rp := bp_rp_arg |}) self)) as Hkeep.
  cbn [obs set_obs] in Hkeep. rewrite <- Hkeep.
  unfold call. unfold bind at 1. unfold get_self at 1. rewrite Hm.
  change ("KDE" =? "Vrard")%string with false. cbv iota.
  unfold bind at 1. unfold assign at 1.
  unfold bind at 1. unfold get_self at 1.
  cbn [method set_obs]. rewrite Hm.
  change ("KDE" =? "KDE")%string with true. cbv iota.
  fold (sampling_steps env niter burnin).
  unfold after.
  destruct (sampling_steps env niter burnin _) as [[r s2] out2].
  reflexivity.
Qed.

Lemma configured_configuration (s s' : epsilon) :
  configuration s' = configuration s -> configured s -> configured s'.
Proof.
  unfold configuration, configured. intros H [Hm Hv].
  injection H as Hm' Hv' _ _. now rewrite Hm', Hv'.
Qed.

Lemma init_configured (method_arg : string) (verbose_arg : bool) (s : epsilon) :
  init env method_arg verbose_arg = Ok s -> configured s.
Proof.
  unfold init. intros H.
  destruct (String.eqb_spec method_arg "Vrard") as [Hv | Hv];
    [| destruct (String.eqb_spec method_arg "KDE") as [Hk | Hk]];
    simpl in H; try discriminate;
    injection H as <-; split; simpl; auto.
Qed.

Lemma reachable_configured (s : epsilon) : reachable env s -> configured s.
Proof.
  induction 1 as [m v s Hinit | s d nm t c ni b _ IH | s _ IH | s _ IH
                 | s oa _ IH | s ni nw b _ IH | s n _ IH].
  - eapply init_configured; eauto.
  - eapply configured_configuration; [apply call_keeps | exact IH].
  - eapply configured_configuration;
      [apply call_owned_configuration, read_prior_data_keeps | exact IH].
  - eapply configured_configuration;
      [apply call_owned_configuration, make_kde_keeps | exact IH].
  - eapply configured_configuration;
      [apply call_owned_configuration, obs_to_log_keeps | exact IH].
  - eapply configured_configuration;
      [apply call_owned_configuration, kde_sampler_keeps | exact IH].
  - eapply configured_configuration;
      [apply call_owned_configuration, kde_predict_keeps | exact IH].
Qed.

End Frames.

Lemma init_still_KDE : init still_env "KDE" false = Ok (fresh "KDE").
Proof. reflexivity. Qed.

Lemma init_still_Vrard : init still_env "Vrard" false = Ok (fresh "Vrard").
Proof. reflexivity. Qed.

Lemma resting_env_contract (at_point : list R) :
  sampler_contract (resting_env at_point).
Proof.
  intros nwalkers ndim lnprob start niter. unfold chain_shape.
  cbn [sampler_chain resting_env].
  split; [apply repeat_length |].
  apply Forall_forall. intros walker Hw. apply repeat_spec in Hw. subst walker.
  split; [apply repeat_length |].
  apply Forall_forall. intros p Hp. apply repeat_spec in Hp. subst p.
  rewrite length_firstn, length_app, repeat_length. lia.
Qed.

Lemma still_env_contract : sampler_contract still_env.
Proof. apply resting_env_contract. Qed.

(** * The Gaussian data term *)

(** C3: the contribution of an observed quantity to the data term is [0.0]
    when its uncertainty is negative and [-0.5 * (y - mu)**2 / sigma**2]
    otherwise, a real number for every positive uncertainty; and each of the
    four terms of [likelihood] is such a contribution, added to the log of
    the prior density. *)
Theorem normal_gaussian_contribution :
  (forall y mu sigma : R,
      (sigma < 0 -> normal y mu sigma = Ok 0) /\
      (~ sigma < 0 ->
       normal y mu sigma = py_truediv (-0.5 * (y - mu) ^ 2) (sigma ^ 2)) /\
      (0 < sigma ->
       normal y mu sigma = Ok (-0.5 * (y - mu) ^ 2 / sigma ^ 2))) /\
  (forall (env : environment) (self : epsilon) (k : KDEMultivariate)
          (lo : observation) (p1 p2 p3 p4 p5 t1 t2 t3 t4 : R),
      kde self = Some k ->
      log_obs self = Some lo ->
      normal p1 (fst (obs_dnu lo)) (snd (obs_dnu lo)) = Ok t1 ->
      normal p2 (fst (obs_numax lo)) (snd (obs_numax lo)) = Ok t2 ->
      normal p3 (fst (obs_teff lo)) (snd (obs_teff lo)) = Ok t3 ->
      normal p4 (fst (obs_bp_rp lo)) (snd (obs_bp_rp lo)) = Ok t4 ->
      likelihood env self [p1; p2; p3; p4; p5] =
        Ok (ln (pdf env k [p1; p2; p3; p4; p5]) + (0 + t1 + t2 + t3 + t4))).
Proof.
  split.
  - intros y mu sigma. repeat split.
    + apply normal_negative.
    + apply normal_not_negative.
    + apply normal_positive.
  - intros env self k lo p1 p2 p3 p4 p5 t1 t2 t3 t4 Hk Hlo H1 H2 H3 H4.
    unfold likelihood. rewrite Hk, Hlo, H1, H2, H3, H4. reflexivity.
Qed.

Lemma normal_gaussian_contribution_witness :
  normal 3 1 (-1) = Ok 0 /\
  normal 3 1 2 = Ok (-0.5 * (3 - 1) ^ 2 / 2 ^ 2).
Proof.
  destruct normal_gaussian_contribution as [Hnormal _].
  split.
  - apply (Hnormal 3 1 (-1)). lra.
  - apply (Hnormal 3 1 2). lra.
Defined.

(** C9: [normal] guards only a negative uncertainty.  With [sigma == 0] it
    divides by zero whatever [y] and [mu] are, so in particular for
    [y != mu], and the result is not the [0.0] of an unconstrained quantity;
    [to_log10] hands a zero uncertainty on unchanged, and the public
    [likelihood] raises on every candidate of Python floats once the log
    observation holds one. *)
Theorem normal_zero_sigma_divides_by_zero :
  (forall y mu sigma : R, sigma < 0 -> normal y mu sigma = Ok 0) /\
  (forall y mu : R,
      normal y mu 0 = py_truediv (-0.5 * (y - mu) ^ 2) (0 ^ 2) /\
      normal y mu 0 = Raise ZeroDivisionError /\
      normal y mu 0 <> Ok 0) /\
  (forall x : R, to_log10 x 0 = Ok (x, 0)) /\
  (forall (env : environment) (self : epsilon) (k : KDEMultivariate)
          (lo : observation) (p1 p2 p3 p4 p5 : R),
      kde self = Some k ->
      log_obs self = Some lo ->
      snd (obs_dnu lo) = 0 ->
      likelihood env self [p1; p2; p3; p4; p5] = Raise ZeroDivisionError).
Proof.
  repeat split.
  - apply normal_negative.
  - apply normal_not_negative. lra.
  - apply normal_zero.
  - rewrite normal_zero. discriminate.
  - intros x. apply to_log10_not_positive. lra.
  - intros env self k lo p1 p2 p3 p4 p5 Hk Hlo Hs.
    unfold likelihood. rewrite Hk, Hlo, Hs, normal_zero. reflexivity.
Qed.

Lemma normal_zero_sigma_divides_by_zero_witness :
  normal 3 1 (-1) = Ok 0 /\
  normal 3 1 0 = Raise ZeroDivisionError /\
  likelihood still_env
    (set_kde {| kde_data := []; var_type := "ccccc"; bw := kde_bw |}
       (set_log_obs {| obs_dnu := (1, 0); obs_numax := (1, -1);
                       obs_teff := (1, -1); obs_bp_rp := (1, -1) |}
          (fresh "KDE")))
    [0; 0; 0; 0; 1] = Raise ZeroDivisionError.
Proof.
  destruct normal_zero_sigma_divides_by_zero as (Hneg & Hzero & _ & Hlike).
  repeat split.
  - apply Hneg. lra.
  - apply (Hzero 3 1).
  - eapply Hlike; reflexivity.
Defined.

(** * The log transform *)



(** * Construction *)

(** C7: [__init__] raises [ValueError] for every method other than
    ['Vrard'] and ['KDE'], and for these two it returns an instance with
    that method and nothing stored yet. *)
Theorem init_checks_method (env : environment) (method_arg : string)
    (verbose_arg : bool) :
  (method_arg <> "Vrard" -> method_arg <> "KDE" ->
   init env method_arg verbose_arg = Raise (ValueError method_error)) /\
  (method_arg = "Vrard" \/ method_arg = "KDE" ->
   exists self,
     init env method_arg verbose_arg = Ok self /\
     method self = method_arg /\
     verbose self = verbose_arg /\
     obs self = ObsEmptyList /\
     samples self = SamplesEmptyList).
Proof.
  unfold init. split.
  - intros Hv Hk.
    apply String.eqb_neq in Hv. apply String.eqb_neq in Hk.
    rewrite Hv, Hk. reflexivity.
  - intros [-> | ->]; eexists; repeat split.
Qed.

Lemma init_checks_method_witness :
  init still_env "Bayes" true = Raise (ValueError method_error) /\
  (exists self, init still_env "KDE" true = Ok self /\
                method self = "KDE" /\
                verbose self = true /\
                obs self = ObsEmptyList /\
                samples self = SamplesEmptyList).
Proof.
  split.
  - apply (init_checks_method still_env "Bayes" true); discriminate.
  - apply (init_checks_method still_env "KDE" true). now right.
Defined.

(** * Prediction before sampling *)

(** C8: while [self.samples] is still the empty list of [__init__],
    [kde_predict] prints its diagnostic, returns [(-1, -1)] and leaves the
    instance as it was. *)
Theorem kde_predict_without_samples (self : epsilon) (n : list R) :
  samples self = SamplesEmptyList ->
  kde_predict n self =
    (Ok (VInt (-1), VInt (-1)), self,
     [Print "Need to run the sampler first"]).
Proof.
  intros Hs. unfold kde_predict, bind, get_self, emit, ret.
  rewrite Hs. reflexivity.
Qed.

Lemma kde_predict_without_samples_witness :
  kde_predict [10; 11; 12] (fresh "KDE") =
    (Ok (VInt (-1), VInt (-1)), fresh "KDE",
     [Print "Need to run the sampler first"]).
Proof.
  apply (kde_predict_without_samples (fresh "KDE") [10; 11; 12]).
  reflexivity.
Defined.

(** * The regression of Vrard et al. *)

Lemma tenth_of_ones (n : nat) :
  map (fun one => 0.1 * one) (repeat 1 n) = repeat 0.1 n.
Proof.
  induction n as [| n IH]; [reflexivity |].
  simpl. rewrite IH. f_equal. lra.
Qed.

Lemma vrard_pair (self : epsilon) (v u : R) :
  vrard self [v; u] =
    (VFloat (alpha (vrard_dict self) + beta (vrard_dict self) * np_log10 v),
     VFloat 0.1).
Proof. reflexivity. Qed.

Lemma vrard_array (self : epsilon) (dnus : list R) :
  length dnus <> 2%nat ->
  vrard self dnus =
    (VArray (map (fun d => alpha (vrard_dict self)
                           + beta (vrard_dict self) * np_log10 d) dnus),
     VArray (repeat 0.1 (length dnus))).
Proof.
  intros Hlen. unfold vrard.
  destruct (Nat.eqb_spec (length dnus) 2) as [E | _]; [contradiction |].
  now rewrite tenth_of_ones.
Qed.

Lemma vrard_pair_configured (self : epsilon) (v u : R) :
  configured self ->
  vrard self [v; u] = (VFloat (0.601 + 0.632 * np_log10 v), VFloat 0.1).
Proof. intros [_ Hdict]. rewrite vrard_pair, Hdict. reflexivity. Qed.

(** C6: on an instance built by [__init__] and used through its methods,
    [vrard] of a [value, uncertainty] pair is
    [0.601 + 0.632 * log10(value)] with uncertainty [0.1], and [vrard] of an
    array of any other length is that formula entry by entry with an array
    of as many [0.1]. *)
Theorem vrard_regression (env : environment) (self : epsilon) :
  reachable env self ->
  (forall v u : R,
      vrard self [v; u] = (VFloat (0.601 + 0.632 * np_log10 v), VFloat 0.1)) /\
  (forall dnus : list R,
      length dnus <> 2%nat ->
      vrard self dnus =
        (VArray (map (fun d => 0.601 + 0.632 * np_log10 d) dnus),
         VArray (repeat 0.1 (length dnus)))).
Proof.
  intros Hreach. apply reachable_configured in Hreach.
  split.
  - intros v u. now apply vrard_pair_configured.
  - intros dnus Hlen. destruct Hreach as [_ Hdict].
    rewrite vrard_array by assumption.
    rewrite Hdict. reflexivity.
Qed.

Lemma vrard_regression_witness :
  vrard (fresh "Vrard") [100; -1]
    = (VFloat (0.601 + 0.632 * np_log10 100), VFloat 0.1) /\
  vrard (fresh "Vrard") [90; 100; 110]
    = (VArray (map (fun d => 0.601 + 0.632 * np_log10 d) [90; 100; 110]),
       VArray [0.1; 0.1; 0.1]).
Proof.
  assert (Hreach : reachable still_env (fresh "Vrard")).
  { apply (reach_init still_env "Vrard" false). reflexivity. }
  split.
  - apply (proj1 (vrard_regression still_env (fresh "Vrard") Hreach)).
  - apply (proj2 (vrard_regression still_env (fresh "Vrard") Hreach)
             [90; 100; 110]).
    simpl. lia.
Defined.

(** * The regression path of the call *)

(** C4: an estimator with method ['Vrard'] called with [numax[0] > 288.0]
    warns once and returns the regression epsilon with uncertainty [1.0];
    called with [numax[0] <= 288.0] it returns the regression epsilon with
    uncertainty [0.1] and emits nothing.  Either way the instance is left
    as it was. *)
Theorem call_vrard_threshold (env : environment) (self : epsilon)
    (dnu_arg numax_arg teff_arg bp_rp_arg : R * R) (niter burnin : Z) :
  reachable env self ->
  method self = "Vrard" ->
  (288 < fst numax_arg ->
   call env dnu_arg numax_arg teff_arg bp_rp_arg niter burnin self =
     (Ok (Some (VFloat (0.601 + 0.632 * np_log10 (fst dnu_arg)), VFloat 1)),
      self,
      [Warn "Vrard method really only valid for Giants."])) /\
  (fst numax_arg <= 288 ->
   call env dnu_arg numax_arg teff_arg bp_rp_arg niter burnin self =
     (Ok (Some (VFloat (0.601 + 0.632 * np_log10 (fst dnu_arg)), VFloat 0.1)),
      self,
      [])).
Proof.
  intros Hreach Hm. apply reachable_configured in Hreach.
  rewrite call_vrard_run by assumption.
  rewrite (vrard_pair_configured self _ _ Hreach).
  replace 288.0 with 288 by lra. replace 1.0 with 1 by lra.
  split; intros Hnumax;
    destruct (Rlt_dec 288 (fst numax_arg)); try lra; reflexivity.
Qed.

Lemma call_vrard_threshold_witness :
  call still_env (100, 1) (300, 5) (4800, 100) (1.2, 0.05) 4000 2000
       (fresh "Vrard") =
    (Ok (Some (VFloat (0.601 + 0.632 * np_log10 100), VFloat 1)),
     fresh "Vrard",
     [Warn "Vrard method really only valid for Giants."]) /\
  call still_env (100, 1) (50, 5) (4800, 100) (1.2, 0.05) 4000 2000
       (fresh "Vrard") =
    (Ok (Some (VFloat (0.601 + 0.632 * np_log10 100), VFloat 0.1)),
     fresh "Vrard",
     []).
Proof.
  assert (Hreach : reachable still_env (fresh "Vrard")).
  { apply (reach_init still_env "Vrard" false). reflexivity. }
  split.
  - apply (call_vrard_threshold still_env (fresh "Vrard")
             (100, 1) (300, 5) (4800, 100) (1.2, 0.05) 4000 2000 Hreach).
    + reflexivity.
    + simpl. lra.
  - apply (call_vrard_threshold still_env (fresh "Vrard")
             (100, 1) (50, 5) (4800, 100) (1.2, 0.05) 4000 2000 Hreach).
    + reflexivity.
    + simpl. lra.
Defined.

(** * What the call assigns *)

(** C10: a call on an estimator with method ['Vrard'] returns and leaves
    every attribute, so [obs] and [samples], as it was.  On an instance
    built by [__init__] a call that changes [obs] or [samples] is a call of
    the ['KDE'] method, and such a call does store the observation. *)
Theorem call_vrard_assigns_nothing (env : environment) (self : epsilon)
    (dnu_arg numax_arg teff_arg bp_rp_arg : R * R) (niter burnin : Z) :
  let run := call env dnu_arg numax_arg teff_arg bp_rp_arg niter burnin self in
  (method self = "Vrard" ->
   (exists estimate, returned run = Ok (Some estimate)) /\
   after run = self /\
   obs (after run) = obs self /\
   samples (after run) = samples self) /\
  (reachable env self ->
   obs (after run) <> obs self \/ samples (after run) <> samples self ->
   method self = "KDE") /\
  (method self = "KDE" ->
   obs (after run) =
     ObsDict {| obs_dnu := dnu_arg; obs_numax := numax_arg;
                obs_teff := teff_arg; obs_bp_rp := bp_rp_arg |}).
Proof.
  intros run.
  assert (Hvrard : method self = "Vrard" ->
                   (exists estimate, returned run = Ok (Some estimate)) /\
                   after run = self).
  { intros Hm. subst run. rewrite call_vrard_run by assumption.
    destruct (Rlt_dec 288.0 (fst numax_arg)); split;
      try reflexivity; eexists; reflexivity. }
  repeat split.
  - now apply Hvrard.
  - now apply Hvrard.
  - destruct (Hvrard H) as [_ ->]. reflexivity.
  - destruct (Hvrard H) as [_ ->]. reflexivity.
  - intros Hreach Hchanged.
    destruct (reachable_configured env self Hreach) as [[Hm | Hm] _];
      [| exact Hm].
    destruct (Hvrard Hm) as [_ Hsame]. rewrite Hsame in Hchanged.
    destruct Hchanged as [Hc | Hc]; now contradiction Hc.
  - intros Hm. subst run. now apply call_kde_stores_obs.
Qed.

Lemma call_vrard_assigns_nothing_witness :
  after (call still_env (100, 1) (300, 5) (4800, 100) (1.2, 0.05) 4000 2000
              (fresh "Vrard")) = fresh "Vrard" /\
  obs (after (call still_env (100, 1) (300, 5) (4800, 100) (1.2, 0.05) 4000 2000
                   (fresh "KDE"))) =
    ObsDict {| obs_dnu := (100, 1); obs_numax := (300, 5);
               obs_teff := (4800, 100); obs_bp_rp := (1.2, 0.05) |}.
Proof.
  split.
  - apply (call_vrard_assigns_nothing still_env (fresh "Vrard")
             (100, 1) (300, 5) (4800, 100) (1.2, 0.05) 4000 2000).
    reflexivity.
  - apply (call_vrard_assigns_nothing still_env (fresh "KDE")
             (100, 1) (300, 5) (4800, 100) (1.2, 0.05) 4000 2000).
    reflexivity.
Defined.

(** * The sampling path of the call *)

Lemma obs_to_log_unset (obs_arg : obs_attr) (self : epsilon) :
  obs self = ObsEmptyList ->
  obs_to_log obs_arg self = (Raise TypeError, self, []).
Proof.
  intros Ho. unfold obs_to_log, bind, get_self, lift. now rewrite Ho.
Qed.

Lemma obs_to_log_run (obs_arg : obs_attr) (self : epsilon) (o : observation) :
  obs self = ObsDict o ->
  obs_to_log obs_arg self =
    match converted o with
    | Ok lo => (Ok tt, set_log_obs lo self, [])
    | Raise e => (Raise e, self, [])
    end.
Proof.
  intros Ho. unfold obs_to_log, converted, bind, get_self, lift, assign.
  rewrite Ho.
  destruct (to_log10 (fst (obs_dnu o)) _); [| reflexivity].
  destruct (to_log10 (fst (obs_numax o)) _); [| reflexivity].
  destruct (to_log10 (fst (obs_teff o)) _); reflexivity.
Qed.

Lemma converted_ok (o lo : observation) :
  converted o = Ok lo ->
  to_log10 (fst (obs_dnu o)) (snd (obs_dnu o)) = Ok (obs_dnu lo) /\
  to_log10 (fst (obs_numax o)) (snd (obs_numax o)) = Ok (obs_numax lo) /\
  to_log10 (fst (obs_teff o)) (snd (obs_teff o)) = Ok (obs_teff lo) /\
  obs_bp_rp lo = obs_bp_rp o.
Proof.
  unfold converted. intros H.
  destruct (to_log10 (fst (obs_dnu o)) _); [| discriminate].
  destruct (to_log10 (fst (obs_numax o)) _); [| discriminate].
  destruct (to_log10 (fst (obs_teff o)) _); [| discriminate].
  injection H as <-. repeat split.
Qed.

Lemma converted_zero_dnu (o : observation) :
  fst (obs_dnu o) = 0 -> 0 < snd (obs_dnu o) ->
  converted o = Raise ZeroDivisionError.
Proof.
  intros Hx He. unfold converted. rewrite Hx.
  now rewrite to_log10_positive_zero.
Qed.

(** The sampling path when a log transform raises. *)
Lemma call_kde_raises (env : environment) (self : epsilon)
    (dnu_arg numax_arg teff_arg bp_rp_arg : R * R) (niter burnin : Z)
    (e : exn) :
  method self = "KDE" ->
  let o := {| obs_dnu := dnu_arg; obs_numax := numax_arg;
              obs_teff := teff_arg; obs_bp_rp := bp_rp_arg |} in
  converted o = Raise e ->
  call env dnu_arg numax_arg teff_arg bp_rp_arg niter burnin self =
    (Raise e,
     set_prior_data (prior_of env self) (set_obs (ObsDict o) self),
     if verbose self then [Print "Reading in prior data"] else []).
Proof.
  intros Hm o Hc.
  unfold call, read_prior_data, bind, get_self, assign, when, emit, ret.
  rewrite Hm.
  change ("KDE" =? "Vrard")%string with false. cbv iota.
  cbn [method set_obs]. rewrite Hm.
  change ("KDE" =? "KDE")%string with true. cbv iota.
  fold o.
  destruct (verbose self) eqn:Ev;
    cbn [verbose set_obs data_file obs set_prior_data app];
    rewrite ?Ev;
    fold (prior_of env self);
    rewrite (obs_to_log_run _ (set_prior_data (prior_of env self)
                                 (set_obs (ObsDict o) self)) o)
      by reflexivity;
    rewrite Hc; reflexivity.
Qed.

(** The sampling path when the prior table is too small for the density. *)
Lemma call_kde_too_few (env : environment) (self : epsilon)
    (dnu_arg numax_arg teff_arg bp_rp_arg : R * R) (niter burnin : Z)
    (lo : observation) :
  method self = "KDE" ->
  (length (prior_of env self) <= 5)%nat ->
  let o := {| obs_dnu := dnu_arg; obs_numax := numax_arg;
              obs_teff := teff_arg; obs_bp_rp := bp_rp_arg |} in
  converted o = Ok lo ->
  call env dnu_arg numax_arg teff_arg bp_rp_arg niter burnin self =
    (Raise (ValueError too_few_observations),
     set_cols kde_cols
       (set_log_obs lo
          (set_prior_data (prior_of env self) (set_obs (ObsDict o) self))),
     if verbose self
     then [Print "Reading in prior data"; Print "Building KDE"]
     else []).
Proof.
  intros Hm Hrows o Hc.
  assert (Hk : new_KDEMultivariate
                 (map (fun r => [log_dnu r; log_numax r; log_Teff r;
                                 bp_rp r; eps r])
                    (prior_of env self))
                 "ccccc" kde_bw
               = Raise (ValueError too_few_observations)).
  { apply new_KDEMultivariate_too_few. rewrite length_map. exact Hrows. }
  unfold call, read_prior_data, make_kde, bind, get_self, assign, when, emit,
    ret, lift, attribute.
  rewrite Hm.
  change ("KDE" =? "Vrard")%string with false. cbv iota.
  cbn [method set_obs]. rewrite Hm.
  change ("KDE" =? "KDE")%string with true. cbv iota.
  fold o.
  destruct (verbose self) eqn:Ev;
    cbn [verbose set_obs data_file obs set_prior_data app];
    rewrite ?Ev;
    fold (prior_of env self);
    rewrite (obs_to_log_run _ (set_prior_data (prior_of env self)
                                 (set_obs (ObsDict o) self)) o)
      by reflexivity;
    rewrite Hc;
    repeat (cbn [verbose set_log_obs set_prior_data set_obs set_cols
                 prior_data app];
            rewrite ?Ev, ?Hk);
    reflexivity.
Qed.

(** What a call of the ['KDE'] method does when the log transform returns
    and the prior table has more than five kept rows, for any [burnin]. *)
Lemma call_kde_outcome (env : environment) (self : epsilon)
    (dnu_arg numax_arg teff_arg bp_rp_arg : R * R) (niter burnin : Z)
    (lo : observation) :
  sampler_contract env ->
  method self = "KDE" ->
  (5 < length (prior_of env self))%nat ->
  let o := {| obs_dnu := dnu_arg; obs_numax := numax_arg;
              obs_teff := teff_arg; obs_bp_rp := bp_rp_arg |} in
  converted o = Ok lo ->
  let chain := call_chain env o lo self niter in
  let pool := concat (map (slice_from burnin) chain) in
  chain_shape default_nwalkers niter 5 chain /\
  Forall (fun row => length row = 5%nat) pool /\
  length pool =
    (Z.to_nat default_nwalkers
     * (Z.to_nat niter - slice_start burnin (Z.to_nat niter)))%nat /\
  call env dnu_arg numax_arg teff_arg bp_rp_arg niter burnin self =
    (Ok (Some (VFloat (np_mean (eps_column pool)),
               VFloat (np_std (eps_column pool)))),
     set_samples (SamplesArray pool) (prepared env o lo self),
     verbose_lines self).
Proof.
  intros Hcontract Hm Hrows o Hc chain pool.
  destruct (converted_ok o lo Hc) as (Hd & Hn & Ht & Hb).
  assert (Hlo : lo = {| obs_dnu := obs_dnu lo; obs_numax := obs_numax lo;
                        obs_teff := obs_teff lo; obs_bp_rp := bp_rp_arg |})
    by (destruct lo; cbn in *; now subst).
  rewrite (call_kde_run env self dnu_arg numax_arg teff_arg bp_rp_arg
             niter burnin _ _ _ Hm Hrows Hd Hn Ht).
  rewrite <- Hlo. fold o.
  assert (Hshape : chain_shape default_nwalkers niter 5 chain)
    by apply Hcontract.
  destruct (flattened_chain default_nwalkers niter burnin 5 chain)
    as (Hflat & Hpool & Hlen); [lia | exact Hshape |].
  unfold call_pool. fold chain. rewrite Hflat. fold pool.
  rewrite (column_in_range 4 5) by (lia || exact Hpool).
  split; [exact Hshape |].
  split; [exact Hpool |].
  split; [exact Hlen |].
  reflexivity.
Qed.

(** [kde_sampler] on an instance that holds a log observation. *)
Lemma kde_sampler_run (env : environment) (self : epsilon) (lo : observation)
    (niter nwalkers burnin : Z) :
  log_obs self = Some lo ->
  kde_sampler env niter nwalkers burnin self =
    (Ok (reshape_rows 5
           (concat (concat (map (slice_from burnin)
              (sampler_chain env nwalkers 5 (likelihood env self)
                 (p0 env (x0 lo) 5 nwalkers) niter))))),
     self,
     if verbose self then [Print "Running KDE sampler"] else []).
Proof.
  intros Hlo.
  unfold kde_sampler, bind, get_self, when, emit, ret, attribute.
  destruct (verbose self); rewrite Hlo; reflexivity.
Qed.

(** With [0 <= burnin <= niter] the slice drops the first [burnin] steps of
    each walker, and the count of kept rows is [nwalkers * (niter - burnin)]. *)
Lemma burnt_chain (nwalkers niter burnin : Z) (chain : list (list (list R))) :
  chain_shape nwalkers niter 5 chain ->
  (0 <= nwalkers)%Z ->
  (0 <= burnin <= niter)%Z ->
  map (slice_from burnin) chain = map (skipn (Z.to_nat burnin)) chain /\
  Z.of_nat (Z.to_nat nwalkers
            * (Z.to_nat niter - slice_start burnin (Z.to_nat niter)))
    = (nwalkers * (niter - burnin))%Z.
Proof.
  intros [_ Hwalkers] Hnw Hb. split.
  - apply map_ext_in. intros walker Hin.
    rewrite Forall_forall in Hwalkers.
    destruct (Hwalkers walker Hin) as [Hsteps _].
    apply slice_from_skipn. rewrite Hsteps. lia.
  - rewrite slice_start_nonneg by lia.
    rewrite Nat2Z.inj_mul, Nat2Z.inj_sub by lia.
    rewrite !Z2Nat.id by lia. reflexivity.
Qed.

(** C2, as the code has it, for a sampler that keeps its contract and
    [0 <= burnin < niter].  [kde_sampler] with [nwalkers] walkers returns
    the chain the sampler hands back without the first [burnin] steps of
    each walker, walker after walker: [nwalkers * (niter - burnin)] rows of
    5 columns.  A call of the ['KDE'] method whose log transform returns
    and whose prior table keeps more than five rows runs it with the
    default 20 walkers, leaves that pool in [self.samples] and returns the
    mean and the standard deviation of its column 4. *)
Theorem call_kde_pool (env : environment) (niter burnin : Z) :
  sampler_contract env ->
  (0 <= burnin < niter)%Z ->
  (forall (self : epsilon) (lo : observation) (nwalkers : Z),
      log_obs self = Some lo ->
      (0 <= nwalkers)%Z ->
      let chain :=
        sampler_chain env nwalkers 5 (likelihood env self)
          (p0 env (x0 lo) 5 nwalkers) niter in
      let pool := concat (map (skipn (Z.to_nat burnin)) chain) in
      returned (kde_sampler env niter nwalkers burnin self) = Ok pool /\
      Z.of_nat (length pool) = (nwalkers * (niter - burnin))%Z /\
      Forall (fun row => length row = 5%nat) pool) /\
  (forall (self : epsilon) (dnu_arg numax_arg teff_arg bp_rp_arg : R * R)
          (lo : observation),
      method self = "KDE" ->
      (5 < length (prior_of env self))%nat ->
      let o := {| obs_dnu := dnu_arg; obs_numax := numax_arg;
                  obs_teff := teff_arg; obs_bp_rp := bp_rp_arg |} in
      converted o = Ok lo ->
      let run :=
        call env dnu_arg numax_arg teff_arg bp_rp_arg niter burnin self in
      let chain := call_chain env o lo self niter in
      let pool := concat (map (skipn (Z.to_nat burnin)) chain) in
      samples (after run) = SamplesArray pool /\
      Z.of_nat (length pool) = (default_nwalkers * (niter - burnin))%Z /\
      Forall (fun row => length row = 5%nat) pool /\
      returned run =
        Ok (Some (VFloat (np_mean (eps_column pool)),
                  VFloat (np_std (eps_column pool))))).
Proof.
  intros Hcontract Hburnin. split.
  - intros self lo nwalkers Hlo Hnw chain pool.
    rewrite (kde_sampler_run env self lo) by assumption. fold chain.
    assert (Hshape : chain_shape nwalkers niter 5 chain) by apply Hcontract.
    destruct (flattened_chain nwalkers niter burnin 5 chain)
      as (Hflat & Hrows & Hlen); [lia | exact Hshape |].
    destruct (burnt_chain nwalkers niter burnin chain Hshape)
      as [Hkept Hcount]; [lia | lia |].
    rewrite Hflat. rewrite Hkept in *. fold pool in Hrows, Hlen |- *.
    unfold returned. cbn [fst].
    split; [reflexivity |].
    split; [| exact Hrows].
    now rewrite Hlen.
  - intros self dnu_arg numax_arg teff_arg bp_rp_arg lo Hm Hrows o Hc
      run chain pool.
    destruct (call_kde_outcome env self dnu_arg numax_arg teff_arg bp_rp_arg
                niter burnin lo Hcontract Hm Hrows Hc)
      as (Hshape & Hpool & Hlen & Hrun).
    fold o in Hshape, Hpool, Hlen, Hrun. fold chain in Hshape, Hpool, Hlen, Hrun.
    destruct (burnt_chain default_nwalkers niter burnin chain Hshape)
      as [Hkept Hcount]; [unfold default_nwalkers; lia | lia |].
    rewrite Hkept in *. fold pool in Hpool, Hlen, Hrun.
    subst run. rewrite Hrun. unfold after, returned.
    cbn [fst snd samples set_samples].
    split; [reflexivity |].
    split; [| split; [exact Hpool | reflexivity]].
    now rewrite Hlen.
Qed.

Lemma drifting_env_contract : sampler_contract drifting_env.
Proof.
  intros nwalkers ndim lnprob start niter. unfold chain_shape.
  cbn [sampler_chain drifting_env].
  split; [now rewrite length_map, length_seq |].
  apply Forall_map, Forall_forall. intros w _.
  split; [now rewrite length_map, length_seq |].
  apply Forall_map, Forall_forall. intros t _.
  rewrite length_firstn, length_app, repeat_length. lia.
Qed.

Lemma bare_env_contract : sampler_contract bare_env.
Proof. exact still_env_contract. Qed.

Lemma measured_obs_converted : converted measured_obs = Ok measured_log.
Proof.
  unfold converted, measured_obs. cbn [obs_dnu obs_numax obs_teff obs_bp_rp fst snd].
  rewrite !to_log10_positive by lra. reflexivity.
Qed.

Lemma default_obs_converted : converted default_obs = Ok default_obs.
Proof.
  unfold converted, default_obs. cbn [obs_dnu obs_numax obs_teff obs_bp_rp fst snd].
  rewrite !to_log10_not_positive by lra. reflexivity.
Qed.

Lemma call_kde_pool_witness :
  let run := call drifting_env (100, 1) (30, 1) (4800, 100) (1.2, 0.05) 3 1
               (fresh "KDE") in
  let chain := call_chain drifting_env measured_obs measured_log
                 (fresh "KDE") 3 in
  let pool := concat (map (skipn (Z.to_nat 1)) chain) in
  samples (after run) = SamplesArray pool /\
  Z.of_nat (length pool) = (default_nwalkers * (3 - 1))%Z /\
  Forall (fun row => length row = 5%nat) pool /\
  returned run =
    Ok (Some (VFloat (np_mean (eps_column pool)),
              VFloat (np_std (eps_column pool)))).
Proof.
  assert (Hburnin : (0 <= 1 < 3)%Z) by lia.
  apply (proj2 (call_kde_pool drifting_env 3 1 drifting_env_contract Hburnin)
           (fresh "KDE") (100, 1) (30, 1) (4800, 100) (1.2, 0.05)
           measured_log).
  - reflexivity.
  - change (length (prior_of drifting_env (fresh "KDE"))) with 6%nat. lia.
  - exact measured_obs_converted.
Defined.

(** The first row of the pool of that call is walker 0 at step 1, its
    starting position moved by 1: step 0 is gone. *)
Lemma call_kde_pool_first_row :
  nth 0 (concat (map (skipn (Z.to_nat 1))
                   (call_chain drifting_env measured_obs measured_log
                      (fresh "KDE") 3))) []
    = map (fun x => x + INR 1)
        (nth 0 (p0 drifting_env (x0 measured_log) 5 default_nwalkers) []).
Proof. reflexivity. Qed.

(** Three calls with [burnin < niter] and a sampler that keeps its contract
    that do not end as the specification states.  A negative [burnin]:
    [chain[:, -1:, :]] keeps the last step of each walker, so with
    [niter = 2] the pool has 20 rows, not [20 * (2 - (-1))].  A value 0
    with a positive uncertainty: the log transform raises and no pool is
    stored.  An empty prior table: the density cannot be built and no pool
    is stored. *)
Lemma call_kde_pool_counterexamples :
  (sampler_contract drifting_env /\
   method (fresh "KDE") = "KDE" /\
   (-1 < 2)%Z /\
   exists pool,
     samples (after (call drifting_env (1, -1) (1, -1) (1, -1) (1, -1) 2 (-1)
                          (fresh "KDE"))) = SamplesArray pool /\
     length pool = 20%nat /\
     Z.of_nat (length pool) <> (default_nwalkers * (2 - -1))%Z) /\
  (sampler_contract drifting_env /\
   (250 < 500)%Z /\
   returned (call drifting_env (0, 1) (30, 1) (4800, 100) (1.2, 0.05) 500 250
                  (fresh "KDE")) = Raise ZeroDivisionError /\
   samples (after (call drifting_env (0, 1) (30, 1) (4800, 100) (1.2, 0.05)
                        500 250 (fresh "KDE"))) = SamplesEmptyList) /\
  (sampler_contract bare_env /\
   (250 < 500)%Z /\
   returned (call bare_env (100, 1) (30, 1) (4800, 100) (1.2, 0.05) 500 250
                  (fresh "KDE")) = Raise (ValueError too_few_observations) /\
   samples (after (call bare_env (100, 1) (30, 1) (4800, 100) (1.2, 0.05)
                        500 250 (fresh "KDE"))) = SamplesEmptyList).
Proof.
  split; [| split].
  - split; [exact drifting_env_contract |].
    split; [reflexivity |].
    split; [lia |].
    destruct (call_kde_outcome drifting_env (fresh "KDE")
                (1, -1) (1, -1) (1, -1) (1, -1) 2 (-1) default_obs)
      as (_ & _ & Hlen & Hrun);
      [ exact drifting_env_contract | reflexivity
      | change (length (prior_of drifting_env (fresh "KDE"))) with 6%nat; lia
      | exact default_obs_converted | ].
    eexists. rewrite Hrun. unfold after. cbn [fst snd samples set_samples].
    split; [reflexivity |].
    change (Z.to_nat default_nwalkers
            * (Z.to_nat 2 - slice_start (-1) (Z.to_nat 2)))%nat
      with 20%nat in Hlen.
    split; [exact Hlen |].
    rewrite Hlen. unfold default_nwalkers. lia.
  - split; [exact drifting_env_contract |].
    split; [lia |].
    rewrite (call_kde_raises drifting_env (fresh "KDE")
               (0, 1) (30, 1) (4800, 100) (1.2, 0.05) 500 250
               ZeroDivisionError)
      by (reflexivity || (apply converted_zero_dnu; simpl; lra)).
    split; reflexivity.
  - split; [exact bare_env_contract |].
    split; [lia |].
    rewrite (call_kde_too_few bare_env (fresh "KDE")
               (100, 1) (30, 1) (4800, 100) (1.2, 0.05) 500 250 measured_log)
      by (reflexivity || (cbn; lia) || exact measured_obs_converted).
    split; reflexivity.
Qed.

(** * Predicted frequencies *)

Lemma zip_with_map {A B C D : Type} (f : B -> C -> D) (g : A -> B) (h : A -> C)
    (l : list A) :
  zip_with f (map g l) (map h l) = map (fun a => f (g a) (h a)) l.
Proof.
  induction l as [| a l IH]; [reflexivity |].
  simpl. now rewrite IH.
Qed.

(** What [kde_predict] returns once a pool of five columns is stored. *)
Lemma kde_predict_with_samples (self : epsilon) (n : list R)
    (pool : list (list R)) :
  samples self = SamplesArray pool ->
  Forall (fun row => length row = 5%nat) pool ->
  n <> [] ->
  kde_predict n self =
    (Ok (VArray (map (fun nn => np_mean (predicted_samples nn pool)) n),
         VArray (map (fun nn => np_std (predicted_samples nn pool)) n)),
     self, []).
Proof.
  intros Hs Hrows Hn.
  assert (Hz : forall nn,
             zip_with (fun e d => (nn + e) * pow10 d)
               (map (fun row => nth 3 row 0) pool)
               (map (fun row => nth 0 row 0) pool)
             = predicted_samples nn pool)
    by (intros nn;
        exact (zip_with_map (fun e d => (nn + e) * pow10 d)
                 (fun row => nth 3 row 0) (fun row => nth 0 row 0) pool)).
  unfold kde_predict, bind, get_self, lift, ret.
  rewrite Hs.
  rewrite (column_in_range 0 5), (column_in_range 3 5) by (lia || exact Hrows).
  destruct n as [| nn0 n']; [contradiction |].
  cbv iota beta. rewrite !map_map.
  do 2 rewrite (map_ext _ _ (fun nn => f_equal _ (Hz nn))).
  reflexivity.
Qed.

Lemma np_mean_single (x : R) : np_mean [x] = x.
Proof. unfold np_mean, np_sum. simpl. field. Qed.

Lemma np_std_single (x : R) : np_std [x] = 0.
Proof.
  unfold np_std. cbn [map]. rewrite !np_mean_single.
  match goal with |- sqrt ?e = 0 => replace e with 0 by ring end.
  apply sqrt_0.
Qed.

Lemma pow10_0 : pow10 0 = 1.
Proof. unfold pow10. apply Rpower_O. lra. Qed.

Lemma np_sum_repeat (c : R) (n : nat) : np_sum (repeat c n) = INR n * c.
Proof.
  induction n as [| n IH]; [simpl; ring |].
  change (np_sum (repeat c (S n))) with (c + np_sum (repeat c n)).
  rewrite IH, S_INR. ring.
Qed.

Lemma np_mean_repeat (c : R) (n : nat) : np_mean (repeat c (S n)) = c.
Proof.
  unfold np_mean. rewrite np_sum_repeat, repeat_length.
  field. apply not_0_INR. discriminate.
Qed.

Lemma np_std_repeat (c : R) (n : nat) : np_std (repeat c (S n)) = 0.
Proof.
  unfold np_std. rewrite np_mean_repeat, map_repeat, np_mean_repeat.
  replace ((c - c) ^ 2) with 0 by ring. apply sqrt_0.
Qed.

Lemma reference_table_kept (at_point : list R) (self : epsilon) :
  length (prior_of (resting_env at_point) self) = 6%nat.
Proof. reflexivity. Qed.

Lemma sampled_pool : samples sampled = SamplesArray resting_pool.
Proof.
  unfold sampled.
  rewrite (call_kde_run (resting_env resting_point) (fresh "KDE")
             (1, -1) (1, -1) (1, -1) (1, -1) 1 0 (1, -1) (1, -1) (1, -1))
    by (reflexivity || (rewrite reference_table_kept; lia)
        || (apply to_log10_not_positive; simpl; lra)).
  reflexivity.
Qed.

(** C1: after a call that leaves the pool [resting_pool], [kde_predict]
    returns for the radial order 1 the frequency [(1 + 1) * 10^0 = 2],
    built from column 3 ([bp_rp]), where the specified prediction is
    [(1 + 2) * 10^0 = 3], built from the [eps] column 4. *)
Theorem kde_predict_reads_column_3 :
  samples sampled = SamplesArray resting_pool /\
  kde_predict [1] sampled = (Ok (VArray [2], VArray [0]), sampled, []) /\
  specified_prediction [1] resting_pool = (VArray [3], VArray [0]) /\
  returned (kde_predict [1] sampled)
    <> Ok (specified_prediction [1] resting_pool).
Proof.
  assert (Hcode : kde_predict [1] sampled
                  = (Ok (VArray [2], VArray [0]), sampled, [])).
  { rewrite (kde_predict_with_samples sampled [1] resting_pool)
      by (exact sampled_pool || discriminate
          || (apply Forall_forall; intros row Hrow;
              apply repeat_spec in Hrow; now subst row)).
    unfold predicted_samples, resting_pool. cbn [map].
    rewrite map_repeat, np_mean_repeat, np_std_repeat.
    unfold resting_point. cbn [nth]. rewrite pow10_0.
    repeat f_equal. lra. }
  assert (Hspec : specified_prediction [1] resting_pool
                  = (VArray [3], VArray [0])).
  { unfold specified_prediction, specified_samples, resting_pool. cbn [map].
    rewrite map_repeat, np_mean_repeat, np_std_repeat.
    unfold resting_point. cbn [nth]. rewrite pow10_0.
    repeat f_equal. lra. }
  split; [exact sampled_pool |].
  split; [exact Hcode |].
  split; [exact Hspec |].
  rewrite Hcode, Hspec. unfold returned. cbn [fst].
  intros H. injection H as H. lra.
Qed.

(** * More on the scalar functions *)

Lemma ln_10_pos : 0 < ln 10.
Proof. rewrite <- ln_1. apply ln_increasing; lra. Qed.

Lemma pow10_np_log10 (x : R) : 0 < x -> pow10 (np_log10 x) = x.
Proof.
  intros Hx. unfold pow10, np_log10, Rpower.
  replace (ln x / ln 10 * ln 10) with (ln x)
    by (field; apply Rgt_not_eq, ln_10_pos).
  now apply exp_ln.
Qed.

Lemma np_log10_times_10 (x : R) : 0 < x -> np_log10 (10 * x) = 1 + np_log10 x.
Proof.
  intros Hx. unfold np_log10. rewrite ln_mult by lra.
  field. apply Rgt_not_eq, ln_10_pos.
Qed.

Lemma np_log10_increasing (x y : R) :
  0 < x -> x < y -> np_log10 x < np_log10 y.
Proof.
  intros Hx Hxy. unfold np_log10.
  apply Rmult_lt_compat_r.
  - apply Rinv_0_lt_compat, ln_10_pos.
  - now apply ln_increasing.
Qed.

(** X1: for a positive value and a positive uncertainty [to_log10] returns
    a logarithm that [10 **] takes back to the value, and a positive
    uncertainty that times [value * ln(10)] is the uncertainty it got. *)
Theorem to_log10_round_trip (x xerr : R) :
  0 < x -> 0 < xerr ->
  exists l s : R,
    to_log10 x xerr = Ok (l, s) /\
    pow10 l = x /\
    0 < s /\
    s * x * ln 10 = xerr.
Proof.
  intros Hx He. exists (np_log10 x), (xerr / x / ln 10).
  pose proof ln_10_pos as Hln.
  split; [apply to_log10_positive; lra |].
  split; [now apply pow10_np_log10 |].
  split.
  - apply Rdiv_lt_0_compat; [apply Rdiv_lt_0_compat |]; assumption.
  - field. split; lra.
Qed.

Lemma to_log10_round_trip_witness :
  exists l s : R,
    to_log10 100 1 = Ok (l, s) /\ pow10 l = 100 /\ 0 < s /\
    s * 100 * ln 10 = 1.
Proof. apply (to_log10_round_trip 100 1); lra. Defined.

(** X2: a negative value with a positive uncertainty comes out of
    [to_log10] with a negative uncertainty, so [normal] returns [0.0] for
    it at every candidate: the measurement no longer constrains anything. *)
Theorem to_log10_negative_value_unconstrains (x xerr : R) :
  x < 0 -> 0 < xerr ->
  exists l s : R,
    to_log10 x xerr = Ok (l, s) /\
    s < 0 /\
    forall y : R, normal y l s = Ok 0.
Proof.
  intros Hx He. exists (np_log10 x), (xerr / x / ln 10).
  pose proof ln_10_pos as Hln.
  assert (Hs : xerr / x / ln 10 < 0).
  { unfold Rdiv.
    assert (Hix : / x < 0) by now apply Rinv_lt_0_compat.
    assert (Hil : 0 < / ln 10) by now apply Rinv_0_lt_compat.
    assert (Hq : xerr * / x < 0) by nra.
    nra. }
  split; [apply to_log10_positive; lra |].
  split; [exact Hs |].
  intros y. now apply normal_negative.
Qed.

Lemma to_log10_negative_value_unconstrains_witness :
  exists l s : R,
    to_log10 (-5) 1 = Ok (l, s) /\ s < 0 /\
    forall y : R, normal y l s = Ok 0.
Proof. apply (to_log10_negative_value_unconstrains (-5) 1); lra. Defined.

Lemma normal_maximum_at_mean_aux (y mu sigma : R) :
  sigma <> 0 -> exists t : R, normal y mu sigma = Ok t /\ t <= 0.
Proof.
  intros Hs. destruct (Rlt_dec sigma 0) as [Hneg | Hnneg].
  - exists 0. rewrite normal_negative by assumption. split; [reflexivity | lra].
  - assert (Hsq : 0 < sigma ^ 2) by (apply pow_lt; lra).
    assert (Hisq : 0 < / sigma ^ 2) by now apply Rinv_0_lt_compat.
    pose proof (pow2_ge_0 (y - mu)) as Hd.
    exists (-0.5 * (y - mu) ^ 2 / sigma ^ 2).
    rewrite normal_positive by lra.
    split; [reflexivity | unfold Rdiv; nra].
Qed.

(** X3: with a non-zero uncertainty [normal] returns a value that is never
    positive, that is zero exactly when the uncertainty is negative or the
    candidate is the mean, and that is the same at [mu - d] and [mu + d]. *)
Theorem normal_maximum_at_mean (y mu sigma : R) :
  sigma <> 0 ->
  exists t : R,
    normal y mu sigma = Ok t /\
    t <= 0 /\
    (t = 0 <-> sigma < 0 \/ y = mu) /\
    normal (2 * mu - y) mu sigma = Ok t.
Proof.
  intros Hs. destruct (Rlt_dec sigma 0) as [Hneg | Hnneg].
  - exists 0. rewrite !normal_negative by assumption.
    repeat split; auto; lra.
  - assert (Hpos : 0 < sigma) by lra.
    assert (Hsq : 0 < sigma ^ 2) by (apply pow_lt; lra).
    assert (Hisq : 0 < / sigma ^ 2) by now apply Rinv_0_lt_compat.
    pose proof (pow2_ge_0 (y - mu)) as Hd.
    exists (-0.5 * (y - mu) ^ 2 / sigma ^ 2).
    rewrite !normal_positive by assumption.
    split; [reflexivity |].
    split; [unfold Rdiv; nra |].
    split.
    + split.
      * intros Ht. right. unfold Rdiv in Ht.
        assert (Hz : (y - mu) ^ 2 = 0) by nra.
        assert (y - mu = 0) by (apply Rsqr_0_uniq; unfold Rsqr; lra).
        lra.
      * intros [Hc | ->]; [lra |].
        replace (mu - mu) with 0 by ring. unfold Rdiv. ring.
    + f_equal. f_equal. ring.
Qed.

Lemma normal_maximum_at_mean_witness :
  exists t : R,
    normal 3 1 2 = Ok t /\ t <= 0 /\ (t = 0 <-> 2 < 0 \/ 3 = 1) /\
    normal (2 * 1 - 3) 1 2 = Ok t.
Proof. apply (normal_maximum_at_mean 3 1 2). lra. Defined.

(** X6: on an instance built by [__init__], the regression epsilon of
    [vrard] grows with a positive [dnu], and by exactly [0.632] for each
    factor of ten in [dnu]. *)
Theorem vrard_grows_by_decades (env : environment) (self : epsilon)
    (d1 d2 u1 u2 : R) :
  reachable env self ->
  0 < d1 -> d1 < d2 ->
  exists e1 e2 : R,
    vrard self [d1; u1] = (VFloat e1, VFloat 0.1) /\
    vrard self [d2; u2] = (VFloat e2, VFloat 0.1) /\
    e1 < e2 /\
    vrard self [10 * d1; u1] = (VFloat (e1 + 0.632), VFloat 0.1).
Proof.
  intros Hreach H1 H12. apply reachable_configured in Hreach.
  exists (0.601 + 0.632 * np_log10 d1), (0.601 + 0.632 * np_log10 d2).
  rewrite !(vrard_pair_configured self) by assumption.
  pose proof (np_log10_increasing d1 d2 H1 H12) as Hinc.
  repeat split; try lra.
  rewrite np_log10_times_10 by assumption.
  f_equal. f_equal. ring.
Qed.

Lemma vrard_grows_by_decades_witness :
  exists e1 e2 : R,
    vrard (fresh "Vrard") [10; -1] = (VFloat e1, VFloat 0.1) /\
    vrard (fresh "Vrard") [100; -1] = (VFloat e2, VFloat 0.1) /\
    e1 < e2 /\
    vrard (fresh "Vrard") [10 * 10; -1] = (VFloat (e1 + 0.632), VFloat 0.1).
Proof.
  apply (vrard_grows_by_decades still_env (fresh "Vrard") 10 100 (-1) (-1)).
  - apply (reach_init still_env "Vrard" false). reflexivity.
  - lra.
  - lra.
Defined.

(** * More on the log-posterior *)

Lemma normal_returns (y mu sigma : R) :
  sigma <> 0 -> exists t, normal y mu sigma = Ok t.
Proof.
  intros Hs. destruct (Rlt_dec sigma 0).
  - exists 0. now apply normal_negative.
  - eexists. apply normal_positive. lra.
Qed.

Lemma normal_returned (y mu sigma t : R) :
  normal y mu sigma = Ok t -> sigma <> 0 /\ t <= 0.
Proof.
  intros H. destruct (Req_dec_T sigma 0) as [-> | Hs].
  - rewrite normal_zero in H. discriminate.
  - split; [exact Hs |].
    destruct (normal_maximum_at_mean_aux y mu sigma Hs) as (t' & Ht' & Hle).
    rewrite Ht' in H. injection H as <-. exact Hle.
Qed.

(** X4: [likelihood] returns a number exactly when the candidate has five
    entries, [make_kde] and [obs_to_log] have stored the density and the log
    observation, and none of the four uncertainties is zero; in every other
    case it raises. *)
Theorem likelihood_returns_iff (env : environment) (self : epsilon)
    (p : list R) :
  (exists v, likelihood env self p = Ok v) <->
  (length p = 5%nat /\
   exists k lo,
     kde self = Some k /\
     log_obs self = Some lo /\
     Forall (fun sigma => sigma <> 0) (sigmas lo)).
Proof.
  split.
  - intros [v Hv].
    destruct p as [| p1 [| p2 [| p3 [| p4 [| p5 [| p6 rest]]]]]];
      try discriminate.
    unfold likelihood in Hv.
    destruct (kde self) as [k |]; [| discriminate].
    destruct (log_obs self) as [lo |]; [| discriminate].
    destruct (normal p1 _ _) as [t1 |] eqn:E1; [| discriminate].
    destruct (normal p2 _ _) as [t2 |] eqn:E2; [| discriminate].
    destruct (normal p3 _ _) as [t3 |] eqn:E3; [| discriminate].
    destruct (normal p4 _ _) as [t4 |] eqn:E4; [| discriminate].
    split; [reflexivity |]. exists k, lo.
    split; [reflexivity |]. split; [reflexivity |].
    unfold sigmas.
    repeat constructor;
      [ apply (normal_returned _ _ _ _ E1) | apply (normal_returned _ _ _ _ E2)
      | apply (normal_returned _ _ _ _ E3) | apply (normal_returned _ _ _ _ E4) ].
  - intros (Hlen & k & lo & Hk & Hlo & Hs).
    destruct p as [| p1 [| p2 [| p3 [| p4 [| p5 [| p6 rest]]]]]];
      try discriminate.
    unfold sigmas in Hs.
    inversion Hs as [| ? ? H1 Hs1]; subst.
    inversion Hs1 as [| ? ? H2 Hs2]; subst.
    inversion Hs2 as [| ? ? H3 Hs3]; subst.
    inversion Hs3 as [| ? ? H4 _]; subst.
    destruct (normal_returns p1 (fst (obs_dnu lo)) _ H1) as [t1 E1].
    destruct (normal_returns p2 (fst (obs_numax lo)) _ H2) as [t2 E2].
    destruct (normal_returns p3 (fst (obs_teff lo)) _ H3) as [t3 E3].
    destruct (normal_returns p4 (fst (obs_bp_rp lo)) _ H4) as [t4 E4].
    eexists. unfold likelihood. rewrite Hk, Hlo, E1, E2, E3, E4. reflexivity.
Qed.

(** X5: whatever [likelihood] returns is at most the log of the prior
    density at the candidate: the data can only lower the log-posterior.
    When all four uncertainties are negative, as with the default arguments
    of [__call__], it is that log exactly. *)
Theorem likelihood_at_most_prior (env : environment) (self : epsilon)
    (k : KDEMultivariate) (lo : observation) (p : list R) (v : R) :
  kde self = Some k ->
  log_obs self = Some lo ->
  likelihood env self p = Ok v ->
  v <= ln (pdf env k p) /\
  (Forall (fun sigma => sigma < 0) (sigmas lo) -> v = ln (pdf env k p)).
Proof.
  intros Hk Hlo Hv.
  destruct p as [| p1 [| p2 [| p3 [| p4 [| p5 [| p6 rest]]]]]];
    try discriminate.
  unfold likelihood in Hv. rewrite Hk, Hlo in Hv.
  destruct (normal p1 _ _) as [t1 |] eqn:E1; [| discriminate].
  destruct (normal p2 _ _) as [t2 |] eqn:E2; [| discriminate].
  destruct (normal p3 _ _) as [t3 |] eqn:E3; [| discriminate].
  destruct (normal p4 _ _) as [t4 |] eqn:E4; [| discriminate].
  cbn [rbind] in Hv. injection Hv as <-.
  destruct (normal_returned _ _ _ _ E1) as [_ L1].
  destruct (normal_returned _ _ _ _ E2) as [_ L2].
  destruct (normal_returned _ _ _ _ E3) as [_ L3].
  destruct (normal_returned _ _ _ _ E4) as [_ L4].
  split; [lra |].
  intros Hs. unfold sigmas in Hs.
  inversion Hs as [| ? ? H1 Hs1]; subst.
  inversion Hs1 as [| ? ? H2 Hs2]; subst.
  inversion Hs2 as [| ? ? H3 Hs3]; subst.
  inversion Hs3 as [| ? ? H4 _]; subst.
  rewrite normal_negative in E1, E2, E3, E4 by assumption.
  injection E1 as <-. injection E2 as <-.
  injection E3 as <-. injection E4 as <-. lra.
Qed.

Lemma likelihood_at_most_prior_witness :
  let lo := {| obs_dnu := (1, -1); obs_numax := (1, -1);
               obs_teff := (1, -1); obs_bp_rp := (1, -1) |} in
  let k := {| kde_data := []; var_type := "ccccc"; bw := kde_bw |} in
  let self := set_kde k (set_log_obs lo (fresh "KDE")) in
  likelihood still_env self [0; 0; 0; 0; 1] = Ok (0 + (0 + 0 + 0 + 0 + 0)) /\
  0 + (0 + 0 + 0 + 0 + 0) <= ln (pdf still_env k [0; 0; 0; 0; 1]).
Proof.
  intros lo k self.
  assert (Hrun : likelihood still_env self [0; 0; 0; 0; 1]
                 = Ok (0 + (0 + 0 + 0 + 0 + 0))).
  { unfold likelihood. cbn [kde log_obs self set_kde set_log_obs].
    cbn [lo obs_dnu obs_numax obs_teff obs_bp_rp fst snd].
    rewrite !normal_negative by lra. cbn [rbind pdf still_env resting_env].
    rewrite ln_1. reflexivity. }
  split; [exact Hrun |].
  apply (likelihood_at_most_prior still_env self k lo [0; 0; 0; 0; 1]
           (0 + (0 + 0 + 0 + 0 + 0)));
    [reflexivity | reflexivity | exact Hrun].
Defined.

(** * More on the methods and the state they leave *)

(** X7: [obs_to_log] converts the observation stored on the instance and
    never looks at its argument: on an instance with no stored observation
    it raises [TypeError] whatever it is given and changes nothing, two
    arguments give the same outcome, and converting again after a
    conversion changes nothing more. *)
Theorem obs_to_log_reads_the_instance (self : epsilon) (a b : obs_attr) :
  (obs self = ObsEmptyList ->
   obs_to_log a self = (Raise TypeError, self, [])) /\
  obs_to_log a self = obs_to_log b self /\
  (forall s1 out,
      obs_to_log a self = (Ok tt, s1, out) ->
      obs_to_log b s1 = (Ok tt, s1, out)).
Proof.
  split; [apply obs_to_log_unset |].
  destruct (obs self) as [| o] eqn:Ho.
  - rewrite !obs_to_log_unset by assumption.
    split; [reflexivity | discriminate].
  - rewrite !(obs_to_log_run _ self o) by assumption.
    split; [reflexivity |].
    intros s1 out Hrun.
    destruct (converted o) as [lo | e] eqn:Hc; [| discriminate].
    injection Hrun as <- <-.
    rewrite (obs_to_log_run b (set_log_obs lo self) o) by exact Ho.
    rewrite Hc. reflexivity.
Qed.

Lemma obs_to_log_reads_the_instance_witness :
  obs_to_log (ObsDict giant_obs) (fresh "KDE")
    = (Raise TypeError, fresh "KDE", []).
Proof.
  apply (obs_to_log_reads_the_instance (fresh "KDE") (ObsDict giant_obs)
           ObsEmptyList);
    reflexivity.
Defined.

(** X8: [read_prior_data], [make_kde], [obs_to_log], [kde_sampler] and
    [kde_predict] never change the method, the Vrard coefficients, the data
    file, the verbosity, the stored observation or the stored pool, whether
    they return or raise. *)
Theorem only_call_stores_obs_and_samples (env : environment) :
  keeps call_owned (read_prior_data env) /\
  keeps call_owned make_kde /\
  (forall obs_arg, keeps call_owned (obs_to_log obs_arg)) /\
  (forall niter nwalkers burnin,
      keeps call_owned (kde_sampler env niter nwalkers burnin)) /\
  (forall n, keeps call_owned (kde_predict n)).
Proof.
  split; [apply read_prior_data_keeps |].
  split; [apply make_kde_keeps |].
  split; [apply obs_to_log_keeps |].
  split; [apply kde_sampler_keeps | apply kde_predict_keeps].
Qed.

Lemma kde_predict_unsampled (n : list R) (self : epsilon) :
  samples self = SamplesEmptyList ->
  kde_predict n self =
    (Ok (VInt (-1), VInt (-1)), self,
     [Print "Need to run the sampler first"]).
Proof.
  intros Hs. unfold kde_predict, bind, get_self, emit, ret.
  now rewrite Hs.
Qed.

(** X9: [kde_sampler] returns its pool without storing it: on an instance
    that holds no pool, [kde_predict] after [kde_sampler] still prints its
    diagnostic and returns [(-1, -1)]. *)
Theorem kde_sampler_does_not_store (env : environment) (self : epsilon)
    (niter nwalkers burnin : Z) (n : list R) :
  samples self = SamplesEmptyList ->
  let sampled_self := after (kde_sampler env niter nwalkers burnin self) in
  kde_predict n sampled_self =
    (Ok (VInt (-1), VInt (-1)), sampled_self,
     [Print "Need to run the sampler first"]).
Proof.
  intros Hs sampled_self. apply kde_predict_unsampled.
  pose proof (kde_sampler_keeps env niter nwalkers burnin self) as Hkeep.
  apply (f_equal snd) in Hkeep. unfold call_owned in Hkeep.
  cbn [snd] in Hkeep. fold sampled_self in Hkeep. now rewrite Hkeep.
Qed.

Lemma kde_sampler_does_not_store_witness :
  let self := set_log_obs giant_obs (fresh "KDE") in
  returned (kde_sampler still_env 4 20 2 self) =
    Ok (repeat (repeat 0 5) 40) /\
  kde_predict [10; 11] (after (kde_sampler still_env 4 20 2 self)) =
    (Ok (VInt (-1), VInt (-1)), after (kde_sampler still_env 4 20 2 self),
     [Print "Need to run the sampler first"]).
Proof.
  intros self. split; [reflexivity |].
  apply (kde_sampler_does_not_store still_env self 4 20 2 [10; 11]).
  reflexivity.
Defined.

(** X10: right after [__init__] nothing of the sampling pipeline is in
    place: [make_kde] raises for the missing [prior_data] (having set
    [cols], not [kde]), [kde_sampler] for the missing [log_obs] before it
    touches the sampler, [obs_to_log] for the missing observation and
    [likelihood] for the missing [kde]. *)
Theorem fresh_instance_is_not_ready (env : environment) (method_arg : string)
    (verbose_arg : bool) (self : epsilon) :
  init env method_arg verbose_arg = Ok self ->
  (returned (make_kde self) = Raise (AttributeError "prior_data") /\
   cols (after (make_kde self)) = Some kde_cols /\
   kde (after (make_kde self)) = None) /\
  (forall niter nwalkers burnin,
      returned (kde_sampler env niter nwalkers burnin self)
        = Raise (AttributeError "log_obs") /\
      after (kde_sampler env niter nwalkers burnin self) = self) /\
  (forall obs_arg,
      obs_to_log obs_arg self = (Raise TypeError, self, [])) /\
  (forall p1 p2 p3 p4 p5,
      likelihood env self [p1; p2; p3; p4; p5] = Raise (AttributeError "kde")).
Proof.
  unfold init. intros Hinit.
  destruct (negb _); [discriminate |]. injection Hinit as <-.
  split; [| split; [| split]].
  - unfold make_kde, bind, get_self, when, emit, ret, assign, attribute,
      returned, after.
    destruct verbose_arg; cbn; repeat split.
  - intros niter nwalkers burnin.
    unfold kde_sampler, bind, get_self, when, emit, ret, attribute,
      returned, after.
    destruct verbose_arg; cbn; split; reflexivity.
  - intros obs_arg. now apply obs_to_log_unset.
  - reflexivity.
Qed.

Lemma fresh_instance_is_not_ready_witness :
  returned (make_kde (fresh "KDE")) = Raise (AttributeError "prior_data") /\
  likelihood still_env (fresh "KDE") [0; 0; 0; 0; 1]
    = Raise (AttributeError "kde").
Proof.
  destruct (fresh_instance_is_not_ready still_env "KDE" false (fresh "KDE")
              init_still_KDE)
    as ((Hmake & _) & _ & _ & Hlike).
  split; [exact Hmake | apply Hlike].
Defined.

Lemma dropna_with_logs_length (rows : list csv_row) :
  length (dropna_with_logs rows) = length (filter is_complete rows).
Proof.
  induction rows as [| r rows IH]; [reflexivity |].
  simpl. unfold is_complete. destruct (complete_row r); simpl; now rewrite IH.
Qed.

Lemma dropna_with_logs_columns (rows : list csv_row) :
  Forall (fun r => log_dnu r = np_log10 (dnu r) /\
                   log_numax r = np_log10 (numax r) /\
                   log_Teff r = np_log10 (Teff r))
    (dropna_with_logs rows).
Proof.
  induction rows as [| r rows IH]; [constructor |].
  simpl. destruct (complete_row r) as [p |] eqn:E; [| exact IH].
  constructor; [| exact IH].
  unfold complete_row in E.
  destruct (csv_dnu r), (csv_numax r), (csv_Teff r), (csv_bp_rp r),
    (csv_eps r); try discriminate.
  injection E as <-. repeat split.
Qed.

Lemma make_kde_run (s : epsilon) (rows : list prior_row) :
  prior_data s = Some rows ->
  make_kde s =
    match
      new_KDEMultivariate
        (map (fun r => [log_dnu r; log_numax r; log_Teff r; bp_rp r; eps r])
           rows)
        "ccccc" kde_bw
    with
    | Ok k =>
        (Ok tt, set_kde k (set_cols kde_cols s),
         if verbose s then [Print "Building KDE"] else [])
    | Raise e =>
        (Raise e, set_cols kde_cols s,
         if verbose s then [Print "Building KDE"] else [])
    end.
Proof.
  intros Hrows.
  unfold make_kde, bind, get_self, when, emit, ret, assign, attribute, lift.
  destruct (verbose s); cbn [prior_data set_cols]; rewrite Hrows;
    destruct (new_KDEMultivariate _ _ _); reflexivity.
Qed.

(** X11: [read_prior_data] always returns, keeping no more rows than the
    CSV file has, each with log columns that are the [log10] of its own
    columns.  [make_kde] after it sets [cols] and then depends on the kept
    rows: with five or fewer it raises the [ValueError] of statsmodels and
    stores no density, with more it returns and stores a density over one
    row of five columns per kept row, with five bandwidths for the five
    continuous variables. *)
Theorem read_prior_data_then_make_kde (env : environment) (self : epsilon) :
  let loaded := after (read_prior_data env self) in
  let built := after (make_kde loaded) in
  let csv := read_csv env (data_file self) in
  exists rows,
    returned (read_prior_data env self) = Ok tt /\
    prior_data loaded = Some rows /\
    (length rows <= length csv)%nat /\
    Forall (fun r => log_dnu r = np_log10 (dnu r) /\
                     log_numax r = np_log10 (numax r) /\
                     log_Teff r = np_log10 (Teff r)) rows /\
    cols built = Some kde_cols /\
    ((length rows <= 5)%nat ->
     returned (make_kde loaded) = Raise (ValueError too_few_observations) /\
     kde built = kde self) /\
    ((5 < length rows)%nat ->
     returned (make_kde loaded) = Ok tt /\
     exists k,
       kde built = Some k /\
       length (kde_data k) = length rows /\
       Forall (fun row => length row = 5%nat) (kde_data k) /\
       length (bw k) = 5%nat /\
       String.length (var_type k) = 5%nat).
Proof.
  intros loaded built csv.
  assert (Hloaded : loaded = set_prior_data (dropna_with_logs csv) self).
  { subst loaded csv.
    unfold read_prior_data, bind, get_self, when, emit, ret, assign, after.
    destruct (verbose self); reflexivity. }
  assert (Hread : returned (read_prior_data env self) = Ok tt).
  { unfold read_prior_data, bind, get_self, when, emit, ret, assign, returned.
    destruct (verbose self); reflexivity. }
  assert (Hprior : prior_data loaded = Some (dropna_with_logs csv))
    by (rewrite Hloaded; reflexivity).
  exists (dropna_with_logs csv).
  split; [exact Hread |].
  split; [exact Hprior |].
  split; [rewrite dropna_with_logs_length; apply filter_length_le |].
  split; [apply dropna_with_logs_columns |].
  subst built. rewrite (make_kde_run loaded _ Hprior).
  split; [destruct (new_KDEMultivariate _ _ _); reflexivity |].
  split.
  - intros Hfew.
    rewrite new_KDEMultivariate_too_few by (now rewrite length_map).
    unfold returned, after. cbn [fst snd].
    split; [reflexivity |]. rewrite Hloaded. reflexivity.
  - intros Henough.
    rewrite new_KDEMultivariate_enough by (now rewrite length_map).
    unfold returned, after. cbn [fst snd].
    split; [reflexivity |]. eexists.
    split; [reflexivity |]. cbn [kde_data bw var_type].
    split; [apply length_map |].
    split; [apply Forall_map, Forall_forall; reflexivity |].
    split; reflexivity.
Qed.

Lemma read_prior_data_then_make_kde_witness :
  returned (make_kde (after (read_prior_data still_env (fresh "KDE"))))
    = Ok tt /\
  exists k,
    kde (after (make_kde (after (read_prior_data still_env (fresh "KDE")))))
      = Some k /\
    length (kde_data k) = 6%nat.
Proof.
  destruct (read_prior_data_then_make_kde still_env (fresh "KDE"))
    as (rows & _ & Hprior & _ & _ & _ & _ & Henough).
  change (Some (dropna_with_logs reference_table) = Some rows) in Hprior.
  injection Hprior as <-.
  cbn [length] in Henough.
  destruct Henough as (Hreturned & k & Hk & Hlen & _); [lia |].
  split; [exact Hreturned |].
  exists k. split; [exact Hk | exact Hlen].
Defined.

(** X12: a call of the ['KDE'] method in which a log transform raises, as
    [dnu = [0, 1]] makes it, raises that exception after it has stored the
    new observation and reloaded the prior data, and before it touches the
    pool, the density and the log observation, which stay those of the
    call before. *)
Theorem call_kde_failure_keeps_old_pool (env : environment) (self : epsilon)
    (dnu_arg numax_arg teff_arg bp_rp_arg : R * R) (niter burnin : Z)
    (e : exn) :
  method self = "KDE" ->
  let o := {| obs_dnu := dnu_arg; obs_numax := numax_arg;
              obs_teff := teff_arg; obs_bp_rp := bp_rp_arg |} in
  let run := call env dnu_arg numax_arg teff_arg bp_rp_arg niter burnin self in
  converted o = Raise e ->
  returned run = Raise e /\
  obs (after run) = ObsDict o /\
  prior_data (after run) = Some (prior_of env self) /\
  samples (after run) = samples self /\
  kde (after run) = kde self /\
  log_obs (after run) = log_obs self.
Proof.
  intros Hm o run Hc. subst run.
  rewrite (call_kde_raises env self dnu_arg numax_arg teff_arg bp_rp_arg
             niter burnin e Hm Hc).
  repeat split.
Qed.

Lemma call_kde_failure_keeps_old_pool_witness :
  let run := call (resting_env resting_point) (0, 1) (30, 1) (4800, 100)
               (1.2, 0.05) 500 250 sampled in
  returned run = Raise ZeroDivisionError /\
  obs (after run) =
    ObsDict {| obs_dnu := (0, 1); obs_numax := (30, 1);
               obs_teff := (4800, 100); obs_bp_rp := (1.2, 0.05) |} /\
  prior_data (after run) = Some (prior_of (resting_env resting_point) sampled) /\
  samples (after run) = samples sampled /\
  kde (after run) = kde sampled /\
  log_obs (after run) = log_obs sampled.
Proof.
  apply (call_kde_failure_keeps_old_pool (resting_env resting_point) sampled
           (0, 1) (30, 1) (4800, 100) (1.2, 0.05) 500 250 ZeroDivisionError).
  - apply (f_equal (fun v => fst (fst (fst v))))
      with (x := configuration sampled)
           (y := configuration (fresh "KDE")).
    apply (call_keeps (resting_env resting_point)).
  - apply converted_zero_dnu; simpl; lra.
Defined.

Lemma five_columns_same_samples (s s' : epsilon) :
  samples s' = samples s -> five_columns s -> five_columns s'.
Proof. unfold five_columns. now intros ->. Qed.

Lemma keeps_call_owned_samples {A : Type} (m : M A) (s : epsilon) :
  keeps call_owned m -> samples (after (m s)) = samples s.
Proof.
  intros Hkeep. specialize (Hkeep s).
  apply (f_equal snd) in Hkeep. exact Hkeep.
Qed.

(** A call keeps stored pools five columns wide. *)
Lemma call_keeps_five_columns (env : environment) (self : epsilon)
    (dnu_arg numax_arg teff_arg bp_rp_arg : R * R) (niter burnin : Z) :
  sampler_contract env ->
  five_columns self ->
  five_columns
    (after (call env dnu_arg numax_arg teff_arg bp_rp_arg niter burnin self)).
Proof.
  intros Hcontract Hfive.
  set (o := {| obs_dnu := dnu_arg; obs_numax := numax_arg;
               obs_teff := teff_arg; obs_bp_rp := bp_rp_arg |}).
  destruct (String.eqb_spec (method self) "Vrard") as [Hv | Hv].
  - rewrite call_vrard_run by assumption.
    destruct (Rlt_dec 288.0 (fst numax_arg)); exact Hfive.
  - destruct (String.eqb_spec (method self) "KDE") as [Hk | Hk].
    + destruct (converted o) as [lo | e] eqn:Hc.
      * destruct (Nat.le_gt_cases (length (prior_of env self)) 5)
          as [Hfew | Henough].
        -- rewrite (call_kde_too_few env self dnu_arg numax_arg teff_arg
                      bp_rp_arg niter burnin lo Hk Hfew Hc).
           exact Hfive.
        -- destruct (call_kde_outcome env self dnu_arg numax_arg teff_arg
                       bp_rp_arg niter burnin lo Hcontract Hk Henough Hc)
             as (_ & Hpool & _ & Hrun).
           rewrite Hrun. exact Hpool.
      * rewrite (call_kde_raises env self dnu_arg numax_arg teff_arg bp_rp_arg
                   niter burnin e Hk Hc).
        exact Hfive.
    + apply String.eqb_neq in Hv. apply String.eqb_neq in Hk.
      unfold call, bind, get_self, assign, ret. rewrite Hv.
      cbn [method set_obs]. rewrite Hk. exact Hfive.
Qed.

Lemma reachable_five_columns (env : environment) (self : epsilon) :
  sampler_contract env -> reachable env self -> five_columns self.
Proof.
  intros Hcontract.
  induction 1 as [m v s Hinit | s d nm t c ni b _ IH | s _ IH | s _ IH
                 | s oa _ IH | s ni nw b _ IH | s n _ IH].
  - unfold init in Hinit. destruct (negb _); [discriminate |].
    injection Hinit as <-. exact I.
  - now apply call_keeps_five_columns.
  - eapply five_columns_same_samples; [| exact IH].
    apply keeps_call_owned_samples, read_prior_data_keeps.
  - eapply five_columns_same_samples; [| exact IH].
    apply keeps_call_owned_samples, make_kde_keeps.
  - eapply five_columns_same_samples; [| exact IH].
    apply keeps_call_owned_samples, obs_to_log_keeps.
  - eapply five_columns_same_samples; [| exact IH].
    apply keeps_call_owned_samples, kde_sampler_keeps.
  - eapply five_columns_same_samples; [| exact IH].
    apply keeps_call_owned_samples, kde_predict_keeps.
Qed.

(** X13: with a sampler that keeps its contract, whatever pool an instance
    built by [__init__] and used through its methods holds has five
    columns, so [kde_predict] of at least one radial order never raises on
    it and leaves it as it was: it returns [(-1, -1)] when no pool is
    stored, and otherwise one mean and one deviation per radial order. *)
Theorem kde_predict_never_raises (env : environment) (self : epsilon)
    (n : list R) :
  sampler_contract env ->
  reachable env self ->
  n <> [] ->
  five_columns self /\
  exists a b out,
    kde_predict n self = (Ok (a, b), self, out) /\
    ((samples self = SamplesEmptyList /\ a = VInt (-1) /\ b = VInt (-1)) \/
     (exists rows ms ss,
        samples self = SamplesArray rows /\
        a = VArray ms /\ b = VArray ss /\
        length ms = length n /\ length ss = length n)).
Proof.
  intros Hcontract Hreach Hn.
  pose proof (reachable_five_columns env self Hcontract Hreach) as Hfive.
  split; [exact Hfive |].
  unfold five_columns in Hfive.
  destruct (samples self) as [| rows] eqn:Hs.
  - do 3 eexists. split; [now apply kde_predict_unsampled |].
    left. repeat split.
  - do 3 eexists.
    split; [now apply (kde_predict_with_samples self n rows) |].
    right. do 3 eexists.
    split; [reflexivity |]. split; [reflexivity |]. split; [reflexivity |].
    split; apply length_map.
Qed.

Lemma sampled_reachable : reachable (resting_env resting_point) sampled.
Proof.
  apply reach_call. apply (reach_init _ "KDE" false). reflexivity.
Qed.

Lemma kde_predict_never_raises_witness :
  five_columns sampled /\
  exists a b out,
    kde_predict [10; 11; 12] sampled = (Ok (a, b), sampled, out) /\
    ((samples sampled = SamplesEmptyList /\ a = VInt (-1) /\ b = VInt (-1)) \/
     (exists rows ms ss,
        samples sampled = SamplesArray rows /\
        a = VArray ms /\ b = VArray ss /\
        length ms = length [10; 11; 12] /\
        length ss = length [10; 11; 12])).
Proof.
  apply (kde_predict_never_raises (resting_env resting_point) sampled
           [10; 11; 12]).
  - apply resting_env_contract.
  - exact sampled_reachable.
  - discriminate.
Defined.

(** * More on the predictions and the sampler *)

Lemma np_sum_map_plus {A : Type} (f g : A -> R) (l : list A) :
  np_sum (map (fun a => f a + g a) l) = np_sum (map f l) + np_sum (map g l).
Proof.
  induction l as [| a l IH]; [simpl; ring |].
  change (f a + g a + np_sum (map (fun a => f a + g a) l)
          = f a + np_sum (map f l) + (g a + np_sum (map g l))).
  rewrite IH. ring.
Qed.

(** X14: once a pool of five columns with at least one row is stored, the
    mean frequencies [kde_predict] returns for two consecutive radial
    orders differ by the mean of [10 ** log_dnu] over the pool. *)
Theorem kde_predict_spacing (self : epsilon) (nn : R) (pool : list (list R)) :
  samples self = SamplesArray pool ->
  Forall (fun row => length row = 5%nat) pool ->
  pool <> [] ->
  exists m0 m1 s0 s1 : R,
    kde_predict [nn; nn + 1] self
      = (Ok (VArray [m0; m1], VArray [s0; s1]), self, []) /\
    m1 - m0 = np_mean (map (fun row => pow10 (nth 0 row 0)) pool).
Proof.
  intros Hs Hrows _.
  do 4 eexists.
  split; [rewrite (kde_predict_with_samples self _ pool)
            by (assumption || discriminate);
          reflexivity |].
  unfold np_mean, predicted_samples. rewrite !length_map.
  replace (map (fun row => (nn + 1 + nth 3 row 0) * pow10 (nth 0 row 0)) pool)
    with (map (fun row => (nn + nth 3 row 0) * pow10 (nth 0 row 0)
                          + pow10 (nth 0 row 0)) pool)
    by (apply map_ext; intros row; ring).
  rewrite np_sum_map_plus. unfold Rdiv. ring.
Qed.

Lemma kde_predict_spacing_witness :
  exists m0 m1 s0 s1 : R,
    kde_predict [10; 10 + 1] sampled
      = (Ok (VArray [m0; m1], VArray [s0; s1]), sampled, []) /\
    m1 - m0 = np_mean (map (fun row => pow10 (nth 0 row 0)) resting_pool).
Proof.
  apply (kde_predict_spacing sampled 10 resting_pool).
  - exact sampled_pool.
  - apply Forall_forall. intros row Hrow.
    apply repeat_spec in Hrow. now subst row.
  - discriminate.
Defined.

Lemma kept_steps_slice (niter burnin : Z) :
  (0 <= niter)%Z ->
  Z.of_nat (Z.to_nat niter - slice_start burnin (Z.to_nat niter))
    = kept_steps niter burnin.
Proof.
  intros Hn. unfold kept_steps, slice_start.
  rewrite Z2Nat.id by assumption.
  destruct (Z.ltb_spec burnin 0); lia.
Qed.

(** X15: with a sampler that keeps its contract, [kde_sampler] returns a
    pool of five columns whose number of rows is [nwalkers] times the steps
    the slice keeps: [niter - burnin] for [0 <= burnin <= niter], none for a
    larger [burnin], and the last [-burnin] steps, at most [niter], for a
    negative [burnin]. *)
Theorem kde_sampler_pool_size (env : environment) (self : epsilon)
    (lo : observation) (niter nwalkers burnin : Z) :
  sampler_contract env ->
  log_obs self = Some lo ->
  (0 <= nwalkers)%Z ->
  (0 <= niter)%Z ->
  exists pool,
    returned (kde_sampler env niter nwalkers burnin self) = Ok pool /\
    after (kde_sampler env niter nwalkers burnin self) = self /\
    Forall (fun row => length row = 5%nat) pool /\
    Z.of_nat (length pool) = (nwalkers * kept_steps niter burnin)%Z.
Proof.
  intros Hcontract Hlo Hnw Hni.
  rewrite (kde_sampler_run env self lo) by assumption.
  set (chain := sampler_chain env nwalkers 5 (likelihood env self)
                  (p0 env (x0 lo) 5 nwalkers) niter).
  destruct (flattened_chain nwalkers niter burnin 5 chain)
    as (Hflat & Hrows & Hlen); [lia | apply Hcontract |].
  rewrite Hflat. eexists.
  split; [reflexivity |]. split; [reflexivity |]. split; [exact Hrows |].
  rewrite Hlen, Nat2Z.inj_mul, kept_steps_slice by assumption.
  now rewrite Z2Nat.id.
Qed.

Lemma kde_sampler_pool_size_witness :
  exists pool,
    returned (kde_sampler still_env 10 20 (-3)
                (set_log_obs giant_obs (fresh "KDE"))) = Ok pool /\
    after (kde_sampler still_env 10 20 (-3)
             (set_log_obs giant_obs (fresh "KDE")))
      = set_log_obs giant_obs (fresh "KDE") /\
    Forall (fun row => length row = 5%nat) pool /\
    Z.of_nat (length pool) = (20 * kept_steps 10 (-3))%Z.
Proof.
  apply (kde_sampler_pool_size still_env (set_log_obs giant_obs (fresh "KDE"))
           giant_obs 10 20 (-3)).
  - exact still_env_contract.
  - reflexivity.
  - lia.
  - lia.
Defined.

Lemma jitter_within (xs us : list R) :
  length us = length xs ->
  Forall (fun u => 0 <= u < 1) us ->
  Forall2 (fun x c => x <= c < x + 1e-3) xs
    (zip_with Rplus xs (map (fun u => u * 1e-3) us)).
Proof.
  revert us. induction xs as [| x xs IH]; intros us Hlen Hus.
  - constructor.
  - destruct us as [| u us]; [discriminate |].
    inversion Hus as [| ? ? Hu Hus']; subst.
    simpl. constructor; [lra |].
    apply IH; [now injection Hlen | assumption].
Qed.

(** X16: when [np.random.rand] draws from [[0, 1)], [kde_sampler] starts
    one walker per requested walker, each a five-vector that lies, entry by
    entry, at or above the starting point [x0] and less than [1e-3] above
    it; the [eps] entry of [x0] is 1. *)
Theorem walkers_start_near_observation (env : environment)
    (lo : observation) (nwalkers : Z) :
  rand_contract env ->
  length (p0 env (x0 lo) 5 nwalkers) = Z.to_nat nwalkers /\
  nth 4 (x0 lo) 0 = 1 /\
  Forall (fun p =>
            length p = 5%nat /\
            Forall2 (fun x c => x <= c < x + 1e-3) (x0 lo) p)
    (p0 env (x0 lo) 5 nwalkers).
Proof.
  intros Hrand. unfold p0.
  split; [now rewrite length_map, length_seq |].
  split; [reflexivity |].
  apply Forall_map, Forall_forall. intros i _.
  destruct (Hrand i 5%nat) as [Hlen Hus].
  assert (Hnear : Forall2 (fun x c => x <= c < x + 1e-3) (x0 lo)
                    (zip_with Rplus (x0 lo)
                       (map (fun u => u * 1e-3) (random_rand env i 5))))
    by (apply jitter_within; assumption).
  split; [| exact Hnear].
  apply Forall2_length in Hnear. now rewrite <- Hnear.
Qed.

Lemma still_env_rand_contract : rand_contract still_env.
Proof.
  intros i ndim. cbn [random_rand still_env resting_env].
  split; [apply repeat_length |].
  apply Forall_forall. intros u Hu. apply repeat_spec in Hu. subst u. lra.
Qed.

Lemma walkers_start_near_observation_witness :
  length (p0 still_env (x0 giant_obs) 5 20) = Z.to_nat 20 /\
  nth 4 (x0 giant_obs) 0 = 1 /\
  Forall (fun p =>
            length p = 5%nat /\
            Forall2 (fun x c => x <= c < x + 1e-3) (x0 giant_obs) p)
    (p0 still_env (x0 giant_obs) 5 20).
Proof.
  apply (walkers_start_near_observation still_env giant_obs 20).
  exact still_env_rand_contract.
Defined.

(** * The Monte-Carlo prediction *)

Lemma zip_with_length {A B C : Type} (f : A -> B -> C) (xs : list A)
    (ys : list B) :
  length xs = length ys -> length (zip_with f xs ys) = length ys.
Proof.
  revert ys. induction xs as [| x xs IH]; intros [| y ys] H;
    try discriminate; [reflexivity |].
  simpl. f_equal. apply IH. now injection H.
Qed.

Lemma np_sum_next_order (c : R) (es ds : list R) :
  length es = length ds ->
  np_sum (zip_with (fun e d => (c + 1 + e) * d) es ds)
    = np_sum (zip_with (fun e d => (c + e) * d) es ds) + np_sum ds.
Proof.
  revert ds. induction es as [| e es IH]; intros [| d ds] H;
    try discriminate; [simpl; ring |].
  change ((c + 1 + e) * d
          + np_sum (zip_with (fun e d => (c + 1 + e) * d) es ds)
          = (c + e) * d + np_sum (zip_with (fun e d => (c + e) * d) es ds)
            + (d + np_sum ds)).
  rewrite IH by (now injection H). ring.
Qed.

Section MonteCarloRuns.

Variable randn : nat -> nat -> list R.
Hypothesis randn_draws : randn_contract randn.

(** What [vrard_predict] averages: one epsilon per draw of [dnu]. *)
Lemma vrard_predict_run (self : epsilon) (dnu_arg : R * R) (npts : Z) :
  (0 <= npts)%Z ->
  exists eps_mc,
    length eps_mc = length (dnu_mc randn dnu_arg npts) /\
    forall n, n <> [] ->
      vrard_predict randn self n dnu_arg npts =
        Ok (VArray (map (fun nn =>
                           np_mean (zip_with (fun e d => (nn + e) * d)
                                      eps_mc (dnu_mc randn dnu_arg npts))) n),
            VArray (map (fun nn =>
                           np_std (zip_with (fun e d => (nn + e) * d)
                                     eps_mc (dnu_mc randn dnu_arg npts))) n)).
Proof.
  intros Hnpts.
  assert (Hd : length (dnu_mc randn dnu_arg npts) = Z.to_nat npts)
    by (unfold dnu_mc; now rewrite length_map, randn_draws).
  unfold vrard_predict. fold (dnu_mc randn dnu_arg npts).
  destruct (Z.ltb_spec npts 0) as [Hneg | _]; [lia |].
  unfold vrard.
  destruct (Nat.eqb (length (dnu_mc randn dnu_arg npts)) 2).
  - eexists. split; cycle 1.
    + intros [| nn n] Hn; [contradiction |].
      cbn [rbind]. rewrite !map_map. reflexivity.
    + rewrite length_map, randn_draws. symmetry. exact Hd.
  - eexists. split; cycle 1.
    + intros [| nn n] Hn; [contradiction |].
      cbn [rbind]. rewrite !map_map. reflexivity.
    + assert (Hw : length (zip_with Rmult (randn 1 (Z.to_nat npts))
                             (map (fun one => 0.1 * one)
                                (repeat 1 (length (dnu_mc randn dnu_arg npts)))))
                   = length (dnu_mc randn dnu_arg npts)).
      { rewrite (zip_with_length Rmult);
          rewrite length_map, repeat_length;
          [reflexivity | now rewrite randn_draws, Hd]. }
      rewrite (zip_with_length Rplus); rewrite ?length_map;
        (exact Hw || (symmetry; exact Hw)).
Qed.

(** X17: when [np.random.randn] draws as many numbers as asked,
    [vrard_predict] raises exactly for a negative [npts] (a [ValueError])
    and for an empty sequence of radial orders (the [AxisError] of
    [mean(axis=1)]); in every other case it returns one mean and one
    deviation per radial order. *)
Theorem vrard_predict_returns (self : epsilon) (n : list R) (dnu_arg : R * R)
    (npts : Z) :
  ((npts < 0)%Z ->
   vrard_predict randn self n dnu_arg npts
     = Raise (ValueError "negative dimensions are not allowed")) /\
  ((0 <= npts)%Z -> n = [] ->
   vrard_predict randn self n dnu_arg npts = Raise IndexError) /\
  ((0 <= npts)%Z -> n <> [] ->
   exists ms ss,
     vrard_predict randn self n dnu_arg npts = Ok (VArray ms, VArray ss) /\
     length ms = length n /\ length ss = length n).
Proof.
  split; [| split].
  - intros Hneg. unfold vrard_predict.
    destruct (Z.ltb_spec npts 0); [reflexivity | lia].
  - intros Hnpts ->. unfold vrard_predict, vrard.
    destruct (Z.ltb_spec npts 0); [lia |].
    destruct (Nat.eqb _ 2); reflexivity.
  - intros Hnpts Hn.
    destruct (vrard_predict_run self dnu_arg npts Hnpts) as (eps_mc & _ & Hrun).
    do 2 eexists. split; [now apply Hrun |].
    split; apply length_map.
Qed.

(** X18: with at least one draw, the mean frequencies [vrard_predict]
    returns for two consecutive radial orders differ by the mean of the
    drawn [dnu]. *)
Theorem vrard_predict_spacing (self : epsilon) (nn : R) (dnu_arg : R * R)
    (npts : Z) :
  (0 < npts)%Z ->
  exists m0 m1 s0 s1 : R,
    vrard_predict randn self [nn; nn + 1] dnu_arg npts
      = Ok (VArray [m0; m1], VArray [s0; s1]) /\
    m1 - m0 = np_mean (dnu_mc randn dnu_arg npts).
Proof.
  intros Hnpts.
  destruct (vrard_predict_run self dnu_arg npts) as (eps_mc & Hlen & Hrun);
    [lia |].
  do 4 eexists.
  split; [rewrite Hrun by discriminate; cbn [map]; reflexivity |].
  unfold np_mean. rewrite !zip_with_length by assumption.
  rewrite np_sum_next_order by assumption.
  unfold Rdiv. ring.
Qed.

End MonteCarloRuns.

Lemma still_randn_draws : randn_contract still_randn.
Proof. intros k npts. apply repeat_length. Qed.

Lemma vrard_predict_returns_witness :
  vrard_predict still_randn (fresh "Vrard") [10; 11] (100, 1) (-1)
    = Raise (ValueError "negative dimensions are not allowed") /\
  vrard_predict still_randn (fresh "Vrard") [] (100, 1) 1000 = Raise IndexError /\
  exists ms ss,
    vrard_predict still_randn (fresh "Vrard") [10; 11] (100, 1) 1000
      = Ok (VArray ms, VArray ss) /\
    length ms = length [10; 11] /\ length ss = length [10; 11].
Proof.
  destruct (vrard_predict_returns still_randn still_randn_draws
              (fresh "Vrard") [10; 11] (100, 1) (-1)) as (Hneg & _ & _).
  destruct (vrard_predict_returns still_randn still_randn_draws
              (fresh "Vrard") [] (100, 1) 1000) as (_ & Hempty & _).
  destruct (vrard_predict_returns still_randn still_randn_draws
              (fresh "Vrard") [10; 11] (100, 1) 1000) as (_ & _ & Hok).
  split; [apply Hneg; lia |].
  split; [apply Hempty; [lia | reflexivity] |].
  apply Hok; [lia | discriminate].
Defined.

Lemma vrard_predict_spacing_witness :
  exists m0 m1 s0 s1 : R,
    vrard_predict still_randn (fresh "Vrard") [10; 10 + 1] (100, 1) 1000
      = Ok (VArray [m0; m1], VArray [s0; s1]) /\
    m1 - m0 = np_mean (dnu_mc still_randn (100, 1) 1000).
Proof.
  apply (vrard_predict_spacing still_randn still_randn_draws
           (fresh "Vrard") 10 (100, 1) 1000).
  lia.
Defined.

(** X19: with [npts = 2] the array of the two drawn [dnu] looks to [vrard]
    like a [value, uncertainty] pair, so on an instance built by [__init__]
    both frequency samples of [vrard_predict] carry the regression epsilon
    of the first draw; the second draw enters only as the factor. *)
Theorem vrard_predict_two_draws (env : environment)
    (randn : nat -> nat -> list R) (self : epsilon) (nn : R)
    (dnu_arg : R * R) (z1 z2 w1 w2 : R) :
  reachable env self ->
  randn 0%nat 2%nat = [z1; z2] ->
  randn 1%nat 2%nat = [w1; w2] ->
  let d1 := z1 * snd dnu_arg + fst dnu_arg in
  let d2 := z2 * snd dnu_arg + fst dnu_arg in
  let e1 := 0.601 + 0.632 * np_log10 d1 in
  let frequencies := [(nn + (e1 + w1 * 0.1)) * d1;
                      (nn + (e1 + w2 * 0.1)) * d2] in
  vrard_predict randn self [nn] dnu_arg 2
    = Ok (VArray [np_mean frequencies], VArray [np_std frequencies]).
Proof.
  intros Hreach Hz Hw d1 d2 e1 frequencies.
  apply reachable_configured in Hreach.
  unfold vrard_predict.
  change (2 <? 0)%Z with false. change (Z.to_nat 2) with 2%nat.
  cbv iota. rewrite Hz, Hw. cbn [map].
  rewrite (vrard_pair_configured self _ _ Hreach).
  reflexivity.
Qed.

Lemma vrard_predict_two_draws_witness :
  vrard_predict still_randn (fresh "Vrard") [10] (100, 1) 2
    = Ok (VArray [np_mean [(10 + (0.601 + 0.632 * np_log10 (0 * 1 + 100)
                                  + 0 * 0.1)) * (0 * 1 + 100);
                           (10 + (0.601 + 0.632 * np_log10 (0 * 1 + 100)
                                  + 0 * 0.1)) * (0 * 1 + 100)]],
          VArray [np_std [(10 + (0.601 + 0.632 * np_log10 (0 * 1 + 100)
                                 + 0 * 0.1)) * (0 * 1 + 100);
                          (10 + (0.601 + 0.632 * np_log10 (0 * 1 + 100)
                                 + 0 * 0.1)) * (0 * 1 + 100)]]).
Proof.
  apply (vrard_predict_two_draws still_env still_randn (fresh "Vrard")
           10 (100, 1) 0 0 0 0).
  - apply (reach_init still_env "Vrard" false). reflexivity.
  - reflexivity.
  - reflexivity.
Defined.
